(** * IntelliDocs AI: the document question-answering pipeline of [app.py]

    A shallow embedding of the pipeline functions of [src/app.py]
    ([get_pdf_text], [get_text_chunks], [get_vector_store],
    [process_question], [extract_source_info], [validate_pdf_file],
    [process_documents]) and the properties of its specification that
    concern them.

    Python strings are modelled as [string]; a character is a code point
    below 256.  The external collaborators (PDF reader, text splitter,
    embedding backend, vector search, generation chain, clock) are the
    variables of the section [Pipeline]. *)

From Stdlib Require Import ZArith Ascii String DecimalString Lia.
From stdpp Require Import base option list strings gmap sorting.

Local Open Scope Z_scope.

(** ** Python string primitives *)

Module Py.

(** [str.isspace] on one code point below 256. *)
Definition isspace (c : ascii) : bool :=
  let n := N_of_ascii c in
  (((9 <=? n) && (n <=? 13)) || ((28 <=? n) && (n <=? 32))
   || (n =? 133) || (n =? 160))%N.

Fixpoint lstrip (s : string) : string :=
  match s with
  | EmptyString => EmptyString
  | String c s' => if isspace c then lstrip s' else s
  end.

Fixpoint rstrip (s : string) : string :=
  match s with
  | EmptyString => EmptyString
  | String c s' =>
      match rstrip s' with
      | EmptyString => if isspace c then EmptyString else String c EmptyString
      | r => String c r
      end
  end.

(** [s.strip()] *)
Definition strip (s : string) : string := rstrip (lstrip s).

(** Truth value of a string: non-empty. *)
Definition truthy (s : string) : bool :=
  match s with EmptyString => false | String _ _ => true end.

(** [sub in s] *)
Fixpoint contains (sub s : string) : bool :=
  String.prefix sub s
  || match s with
     | EmptyString => false
     | String _ s' => contains sub s'
     end.

(** [s.split(sep)] for a non-empty [sep]: the pieces between the
    non-overlapping occurrences of [sep], found from the left.  [skip]
    counts the characters of an occurrence still to be passed over. *)
Fixpoint split_go (sep : string) (skip : nat) (s : string) : list string :=
  match s with
  | EmptyString => [EmptyString]
  | String c s' =>
      match skip with
      | S k => split_go sep k s'
      | O =>
          if String.prefix sep s
          then EmptyString :: split_go sep (Nat.pred (String.length sep)) s'
          else match split_go sep O s' with
               | piece :: rest => String c piece :: rest
               | [] => [String c EmptyString]
               end
      end
  end.

Definition split (sep s : string) : list string := split_go sep O s.

(** [s.replace(old, new)] for a non-empty [old]. *)
Fixpoint replace_go (old new : string) (skip : nat) (s : string) : string :=
  match s with
  | EmptyString => EmptyString
  | String c s' =>
      match skip with
      | S k => replace_go old new k s'
      | O =>
          if String.prefix old s
          then new +:+ replace_go old new (Nat.pred (String.length old)) s'
          else String c (replace_go old new O s')
      end
  end.

Definition replace (old new s : string) : string := replace_go old new O s.

Definition lower_char (c : ascii) : ascii :=
  let n := N_of_ascii c in
  if (((65 <=? n) && (n <=? 90))
      || ((192 <=? n) && (n <=? 222) && negb (n =? 215)))%N
  then ascii_of_N (n + 32) else c.

(** [s.lower()] *)
Fixpoint lower (s : string) : string :=
  match s with
  | EmptyString => EmptyString
  | String c s' => String (lower_char c) (lower s')
  end.

(** [s.endswith(suffix)] *)
Definition endswith (s suffix : string) : bool :=
  String.prefix (String.rev suffix) (String.rev s).

(** [str(n)] for a natural number. *)
Definition str_of_nat (n : nat) : string :=
  NilZero.string_of_uint (Nat.to_uint n).

Definition newline : string := String (ascii_of_nat 10) EmptyString.

End Py.

(** ** Data model *)

(** An exception, identified by its message [str(e)]. *)
Definition Exn := string.

(** Outcome of [page.extract_text()]. *)
Inductive PageResult :=
| PageText (page_text : string)
| PageError (e : Exn).

(** Outcome of [PdfReader(f)] and its [pages]. *)
Inductive PdfResult :=
| Unreadable (e : Exn)
| Pages (pages : list PageResult).

(** An uploaded file: its name, its size in bytes and what the PDF reader
    makes of its bytes. *)
Record UploadedFile := {
  name : string;
  size_bytes : Z;
  reader : PdfResult
}.

(** A retrieved document of the vector search. *)
Record Document := { page_content : string }.

(** The dict [{'document': .., 'page': ..}] of [extract_source_info]. *)
Record Citation := { document : string; page : string }.

(** The dict [{'answer': .., 'sources': ..}] of [process_question]. *)
Record QueryResult := { answer : string; sources : list Citation }.

(** An entry of [st.session_state.processed_documents].  [size_mb] is
    [round(size / (1024 * 1024), 2)] in the source, a float; the entry keeps
    the byte count it is computed from. *)
Record DocMeta := {
  pages : nat;
  chunks : nat;
  size_mb : Z;
  processed_time : string
}.

(** Why [validate_pdf_file] rejects a file. *)
Inductive Rejection := TooLarge | NotPdf | EmptyPdf | Corrupted.

(** The messages shown through [st.error] and [st.success]. *)
Inductive Notice :=
| ErrReading (doc : string) (e : Exn)
| ErrVectorStore (e : Exn)
| ErrInvalid (doc : string) (why : Rejection)
| ErrNoText (doc : string)
| ErrNoChunks (doc : string)
| ErrProcessing (doc : string) (e : Exn)
| ErrVectorDb
| ErrNoneProcessed
| Success (processed_count : nat).

(** What a run shows to the user and asks of the backends, in order. *)
Inductive Event :=
| Shown (n : Notice)
| Embed (texts : list string)
| Search (question : string)
| Generate (docs : list Document) (question : string).

(** ** Extraction of citations: [extract_source_info] *)

(** The body of the loop over the lines: [Some] is the [return], [None]
    the fall-through to the next line (the test fails, [parts] has one
    element, or the [IndexError] of [...[1]] is caught). *)
Definition parse_marker_line (line : string) : option Citation :=
  if Py.contains "--- Page" line && Py.contains "of" line then
    match Py.split " of " line with
    | p0 :: p1 :: _ =>
        let filename := Py.strip (Py.replace " ---" EmptyString p1) in
        match Py.split "--- Page " p0 with
        | _ :: x :: _ => Some {| document := filename; page := Py.strip x |}
        | _ => None
        end
    | _ => None
    end
  else None.

Fixpoint first_marker (lines : list string) : option Citation :=
  match lines with
  | [] => None
  | line :: rest =>
      match parse_marker_line line with
      | Some c => Some c
      | None => first_marker rest
      end
  end.

Definition extract_source_info (content : string) : option Citation :=
  first_marker (Py.split Py.newline content).

(** ** Extraction of text: [get_pdf_text] *)

(** [f"\n\n--- Page {page_num + 1} of {pdf_doc.name} ---\n"] *)
Definition marker_line (page_num : nat) (doc_name : string) : string :=
  "--- Page " +:+ Py.str_of_nat (page_num + 1) +:+ " of " +:+ doc_name +:+ " ---".

Definition page_marker (page_num : nat) (doc_name : string) : string :=
  Py.newline +:+ Py.newline +:+ marker_line page_num doc_name +:+ Py.newline.

(** The loop over [enumerate(pdf_reader.pages)]: [text] is the variable
    the loop appends to; [Some e] is the exception that left the loop. *)
Fixpoint read_pages (doc_name : string) (page_num : nat)
    (ps : list PageResult) (text : string) : string * option Exn :=
  match ps with
  | [] => (text, None)
  | PageError e :: _ => (text, Some e)
  | PageText page_text :: rest =>
      read_pages doc_name (S page_num) rest
        (if Py.truthy (Py.strip page_text)
         then text +:+ page_marker page_num doc_name +:+ page_text
         else text)
  end.

(** One iteration of the loop over [pdf_docs]: the [try] holds the reader
    and the page loop, the [except] reports and goes on. *)
Definition read_doc (d : UploadedFile) (text : string) : string * list Event :=
  let '(text', raised) :=
    match reader d with
    | Unreadable e => (text, Some e)
    | Pages ps => read_pages (name d) 0 ps text
    end in
  (text', match raised with
          | Some e => [Shown (ErrReading (name d) e)]
          | None => []
          end).

Fixpoint get_pdf_text_from (pdf_docs : list UploadedFile) (text : string)
    : string * list Event :=
  match pdf_docs with
  | [] => (text, [])
  | d :: rest =>
      let '(text', log) := read_doc d text in
      let '(text'', log') := get_pdf_text_from rest text' in
      (text'', log ++ log')
  end.

Definition get_pdf_text (pdf_docs : list UploadedFile) : string * list Event :=
  get_pdf_text_from pdf_docs EmptyString.

(** ** Computations that raise and log *)

(** A computation either raises or returns, and leaves a log of events. *)
Definition M (A : Type) : Type := (Exn + A) * list Event.

Definition ret {A} (a : A) : M A := (inr a, []).

Definition bind {A B} (m : M A) (k : A -> M B) : M B :=
  match m with
  | (inl e, log) => (inl e, log)
  | (inr a, log) => let '(r, log') := k a in (r, log ++ log')
  end.

(** A call to a backend: the event is logged, then the outcome is known. *)
Definition call {A} (ev : Event) (outcome : Exn + A) : M A := (outcome, [ev]).

(** [try: m  except Exception as e: handler e] *)
Definition try_except {A} (m : M A) (handler : Exn -> M A) : M A :=
  match m with
  | (inl e, log) => let '(r, log') := handler e in (r, log ++ log')
  | (inr a, log) => (inr a, log)
  end.

Notation "'let*' x ':=' m 'in' k" := (bind m (fun x => k))
  (at level 10, x name, m at level 100, k at level 200).

(** ** The pipeline *)

Section Pipeline.

(** The FAISS index over the embedded vectors. *)
Variable Index : Type.

(** A vector store: the stored texts and the index built from them. *)
Record VectorStore := { docstore : list string; index : Index }.

(** [st.session_state]: the index reference and the document registry. *)
Record Session := {
  vector_store : option VectorStore;
  processed_documents : gmap string DocMeta
}.

(** Configuration read from the environment. *)
Variables MAX_FILE_SIZE_MB CHUNK_SIZE CHUNK_OVERLAP : Z.

(** [RecursiveCharacterTextSplitter(chunk_size, chunk_overlap)]: raises,
    or gives the [split_text] of the splitter. *)
Variable RecursiveCharacterTextSplitter : Z -> Z -> Exn + (string -> list string).

(** The embedding backend behind [FAISS.from_texts]. *)
Variable embed_documents : list string -> Exn + Index.

(** [vector_store.save_local("faiss_index")]: [Some e] when it raises. *)
Variable save_local : VectorStore -> option Exn.

(** [vector_store.similarity_search(question, k)] *)
Variable similarity_search : VectorStore -> string -> nat -> Exn + list Document.

(** The chain of [get_conversational_chain], built and run on the
    documents and the question: raises, or gives [response["output_text"]]. *)
Variable chain : list Document -> string -> Exn + string.

(** [datetime.now().strftime(..)] while the file of that position is processed. *)
Variable now : nat -> string.

Definition get_text_chunks (text : string) : Exn + list string :=
  match RecursiveCharacterTextSplitter CHUNK_SIZE CHUNK_OVERLAP with
  | inl e => inl e
  | inr split_text =>
      inr (filter (fun chunk => (100 < String.length (Py.strip chunk))%nat)
                  (split_text text))
  end.

(** [FAISS.from_texts(text_chunks, embedding=embeddings)] *)
Definition from_texts (text_chunks : list string) : Exn + VectorStore :=
  match embed_documents text_chunks with
  | inl e => inl e
  | inr ix => inr {| docstore := text_chunks; index := ix |}
  end.

Definition get_vector_store (text_chunks : list string)
    : option VectorStore * list Event :=
  match from_texts text_chunks with
  | inl e => (None, [Embed text_chunks; Shown (ErrVectorStore e)])
  | inr vs =>
      match save_local vs with
      | Some e => (None, [Embed text_chunks; Shown (ErrVectorStore e)])
      | None => (Some vs, [Embed text_chunks])
      end
  end.

(** The loop that collects the sources of the retrieved documents. *)
Definition collect_sources (docs : list Document) : list Citation :=
  fold_left
    (fun sources doc =>
       match extract_source_info (page_content doc) with
       | Some source_info => sources ++ [source_info]
       | None => sources
       end)
    docs [].

(** The [try] block of [process_question]. *)
Definition answer_from (vs : VectorStore) (question : string) : M QueryResult :=
  let* docs := call (Search question) (similarity_search vs question 5) in
  match docs with
  | [] => ret {| answer := "No relevant information found in the documents.";
                 sources := [] |}
  | _ =>
      let* output_text := call (Generate docs question) (chain docs question) in
      ret {| answer := output_text; sources := collect_sources docs |}
  end.

Definition process_question (st : Session) (question : string) : M QueryResult :=
  match vector_store st with
  | None => ret {| answer := "Please upload and process documents first.";
                   sources := [] |}
  | Some vs =>
      try_except (answer_from vs question)
        (fun e => ret {| answer := "Error processing question: " +:+ e;
                         sources := [] |})
  end.

(** [None] is the pair of [True] and the empty message, [Some why] the
    pair of [False] and a message.  The size test
    [size / (1024 * 1024) > MAX_FILE_SIZE_MB] is on the byte count. *)
Definition validate_pdf_file (uploaded_file : UploadedFile) : option Rejection :=
  if MAX_FILE_SIZE_MB * 1048576 <? size_bytes uploaded_file then Some TooLarge
  else if negb (Py.endswith (Py.lower (name uploaded_file)) ".pdf") then Some NotPdf
  else match reader uploaded_file with
       | Unreadable _ => Some Corrupted
       | Pages [] => Some EmptyPdf
       | Pages (_ :: _) => None
       end.

(** The variables of the loop of [process_documents]. *)
Record Batch := {
  all_text_chunks : list string;
  processed_count : nat;
  registry : gmap string DocMeta
}.

(** One iteration of the loop over [enumerate(uploaded_files)]. *)
Definition process_file (i : nat) (uploaded_file : UploadedFile) (b : Batch)
    : Batch * list Event :=
  match validate_pdf_file uploaded_file with
  | Some why => (b, [Shown (ErrInvalid (name uploaded_file) why)])
  | None =>
      let '(text, log) := get_pdf_text [uploaded_file] in
      if negb (Py.truthy (Py.strip text))
      then (b, log ++ [Shown (ErrNoText (name uploaded_file))])
      else
        match get_text_chunks text with
        | inl e => (b, log ++ [Shown (ErrProcessing (name uploaded_file) e)])
        | inr [] => (b, log ++ [Shown (ErrNoChunks (name uploaded_file))])
        | inr chunks =>
            let extended := all_text_chunks b ++ chunks in
            match reader uploaded_file with
            | Unreadable e =>
                ({| all_text_chunks := extended;
                    processed_count := processed_count b;
                    registry := registry b |},
                 log ++ [Shown (ErrProcessing (name uploaded_file) e)])
            | Pages ps =>
                ({| all_text_chunks := extended;
                    processed_count := S (processed_count b);
                    registry :=
                      <[ name uploaded_file :=
                           {| pages := length ps;
                              chunks := length chunks;
                              size_mb := size_bytes uploaded_file;
                              processed_time := now i |} ]> (registry b) |},
                 log)
            end
        end
  end.

Fixpoint process_files (i : nat) (uploaded_files : list UploadedFile) (b : Batch)
    : Batch * list Event :=
  match uploaded_files with
  | [] => (b, [])
  | f :: rest =>
      let '(b', log) := process_file i f b in
      let '(b'', log') := process_files (S i) rest b' in
      (b'', log ++ log')
  end.

(** The loop variables before the first file: the registry is the
    session's, mutated in place by the loop. *)
Definition new_batch (st : Session) : Batch :=
  {| all_text_chunks := []; processed_count := 0%nat;
     registry := processed_documents st |}.

Definition process_documents (st : Session) (uploaded_files : list UploadedFile)
    : Session * list Event :=
  let '(b, log) := process_files 0 uploaded_files (new_batch st) in
  match all_text_chunks b with
  | [] =>
      ({| vector_store := vector_store st; processed_documents := registry b |},
       log ++ [Shown ErrNoneProcessed])
  | _ =>
      match get_vector_store (all_text_chunks b) with
      | (Some vs, log') =>
          ({| vector_store := Some vs; processed_documents := registry b |},
           log ++ log' ++ [Shown (Success (processed_count b))])
      | (None, log') =>
          ({| vector_store := vector_store st; processed_documents := registry b |},
           log ++ log' ++ [Shown ErrVectorDb])
      end
  end.

End Pipeline.

Arguments Build_VectorStore {Index} _ _.
Arguments docstore {Index} _.
Arguments index {Index} _.
Arguments Build_Session {Index} _ _.
Arguments vector_store {Index} _.
Arguments processed_documents {Index} _.
Arguments from_texts {Index} _ _.
Arguments get_vector_store {Index} _ _ _.
Arguments answer_from {Index} _ _ _ _.
Arguments process_question {Index} _ _ _ _.
Arguments new_batch {Index} _.
Arguments process_documents {Index} _ _ _ _ _ _ _ _ _.

(** ** Notions the properties are stated with *)

(** The page-tagged spans that [read_pages] appends to the text: one per
    page with non-blank text, up to the first page that raises. *)
Fixpoint page_spans (doc_name : string) (page_num : nat) (ps : list PageResult)
    : list (nat * string) :=
  match ps with
  | [] => []
  | PageError _ :: _ => []
  | PageText page_text :: rest =>
      (if Py.truthy (Py.strip page_text)
       then [((page_num + 1)%nat, page_marker page_num doc_name +:+ page_text)]
       else [])
      ++ page_spans doc_name (S page_num) rest
  end.

Fixpoint concat_spans (spans : list (nat * string)) : string :=
  match spans with
  | [] => EmptyString
  | (_, s) :: rest => s +:+ concat_spans rest
  end.

(** The page whose span holds the character at [offset] of the text. *)
Fixpoint page_of_offset (spans : list (nat * string)) (offset : nat) : option nat :=
  match spans with
  | [] => None
  | (p, s) :: rest =>
      if (offset <? String.length s)%nat then Some p
      else page_of_offset rest (offset - String.length s)
  end.

Definition is_page_text (p : PageResult) : bool :=
  match p with PageText _ => true | PageError _ => false end.

Definition is_digit (c : ascii) : bool :=
  let n := N_of_ascii c in ((48 <=? n) && (n <=? 57))%N.

Fixpoint all_digits (s : string) : bool :=
  match s with
  | EmptyString => true
  | String c s' => is_digit c && all_digits s'
  end.

(** A line that yields no citation: it lacks the ['--- Page'] marker or
    the [' of '] separator, or the marker is not before the separator. *)
Definition unmarked (line : string) : bool :=
  negb (Py.contains "--- Page" line)
  || negb (Py.contains " of " line)
  || negb (Py.contains "--- Page " (hd EmptyString (Py.split " of " line))).

(** The chunks one file of a batch adds to [all_text_chunks]. *)
Definition chunks_of (MAX_FILE_SIZE_MB CHUNK_SIZE CHUNK_OVERLAP : Z)
    (RecursiveCharacterTextSplitter : Z -> Z -> Exn + (string -> list string))
    (uploaded_file : UploadedFile) : list string :=
  match validate_pdf_file MAX_FILE_SIZE_MB uploaded_file with
  | Some _ => []
  | None =>
      let text := (get_pdf_text [uploaded_file]).1 in
      if negb (Py.truthy (Py.strip text)) then []
      else match get_text_chunks CHUNK_SIZE CHUNK_OVERLAP
                   RecursiveCharacterTextSplitter text with
           | inl _ => []
           | inr chunks => chunks
           end
  end.

(** ** Concrete documents and stand-ins for the backends *)

Module Demo.

Definition page_one : string :=
  "Solar panels convert sunlight into electricity. The inverter turns the direct current into alternating current, which the household grid can use at once.".

Definition page_two : string :=
  "Batteries store the surplus for the evening hours.".

Definition two_pages : UploadedFile :=
  {| name := "a.pdf"; size_bytes := 2048;
     reader := Pages [PageText page_one; PageText page_two] |}.

Definition one_page : UploadedFile :=
  {| name := "a.pdf"; size_bytes := 1024; reader := Pages [PageText page_one] |}.

Definition blank : UploadedFile :=
  {| name := "scan.pdf"; size_bytes := 4096;
     reader := Pages [PageText "   "; PageText EmptyString] |}.

Definition notes : UploadedFile :=
  {| name := "notes.txt"; size_bytes := 10; reader := Unreadable "EOF marker not found" |}.

(** The second page raises on [extract_text]. *)
Definition damaged : UploadedFile :=
  {| name := "d.pdf"; size_bytes := 2048;
     reader := Pages [PageText page_one; PageError "cannot decode page"; PageText page_two] |}.

Definition text_of (f : UploadedFile) : string := (get_pdf_text [f]).1.

(** A chunk of the text of [two_pages] that starts at the second sentence
    of page 1 and runs to the end of page 2. *)
Definition offset : nat := 74.
Definition straddling : string :=
  String.substring offset (String.length (text_of two_pages) - offset) (text_of two_pages).

(** A splitter that rejects every configuration. *)
Definition rejecting : Z -> Z -> Exn + (string -> list string) :=
  fun _ _ => inl "invalid chunk configuration".

(** A splitter for texts shorter than the chunk size: one chunk, the
    stripped text; it rejects only an overlap larger than the size. *)
Definition whole_text : Z -> Z -> Exn + (string -> list string) :=
  fun chunk_size chunk_overlap =>
    if chunk_size <? chunk_overlap
    then inl "Got a larger chunk overlap than chunk size"
    else inr (fun text => [Py.strip text]).

(** A splitter that also emits a short fragment. *)
Definition with_fragment : Z -> Z -> Exn + (string -> list string) :=
  fun _ _ => inr (fun text => [Py.strip text; "Page 2"]).

Definition embed_ok : list string -> Exn + unit := fun _ => inr tt.
Definition embed_down : list string -> Exn + unit := fun _ => inl "429 quota exceeded".
Definition save_ok : VectorStore unit -> option Exn := fun _ => None.

Definition search_all : VectorStore unit -> string -> nat -> Exn + list Document :=
  fun vs _ k => inr (Build_Document <$> take k (docstore vs)).
Definition search_none : VectorStore unit -> string -> nat -> Exn + list Document :=
  fun _ _ _ => inr [].

Definition chain_ok : list Document -> string -> Exn + string :=
  fun _ _ => inr "Solar panels convert sunlight into electricity.".
Definition chain_down : list Document -> string -> Exn + string :=
  fun _ _ => inl "503 service unavailable".

Definition clock : nat -> string := fun _ => "2024-05-01 10:00:00".

Definition empty_session : Session unit :=
  {| vector_store := None; processed_documents := ∅ |}.

(** A session whose index holds one earlier chunk. *)
Definition old_store : VectorStore unit :=
  {| docstore := ["An earlier chunk about wind turbines."]; index := tt |}.
Definition old_meta : DocMeta :=
  {| pages := 7; chunks := 3; size_mb := 9000; processed_time := "2024-04-01 09:00:00" |}.
Definition old_session : Session unit :=
  {| vector_store := Some old_store;
     processed_documents := {[ "a.pdf" := old_meta ]} |}.

(** Three retrieved chunks: two of the same page, one without marker. *)
Definition retrieved : list Document :=
  [ {| page_content := "--- Page 1 of a.pdf ---" +:+ Py.newline +:+ page_one |};
    {| page_content := "surplus for the evening hours." |};
    {| page_content := "--- Page 1 of a.pdf ---" +:+ Py.newline +:+ "Solar panels" |} ].
Definition search_retrieved : VectorStore unit -> string -> nat -> Exn + list Document :=
  fun _ _ _ => inr retrieved.

End Demo.

(** ** The pages around the pipeline: chat, documents, analytics *)

(** A message of [st.session_state.chat_history]: the user's dict has
    [content] and [timestamp], the assistant's also the [sources]. *)
Inductive ChatMessage :=
| UserMessage (content timestamp : string)
| AiMessage (content : string) (msg_sources : list Citation) (timestamp : string).

(** The figures of [render_analytics]. *)
Record Stats := {
  total_docs : nat;
  total_pages : nat;
  total_chunks : nat;
  total_conversations : nat
}.

(** What a click on "Send" comes to: the test on the question fails,
    [st.error] asks for documents, the question is answered and the page
    rerun, or [process_question] raised after the user's message was
    appended. *)
Inductive SendOutcome :=
| Ignored
| Refused
| Answered (log : list Event)
| Crashed (e : Exn) (log : list Event).

Section App.

Variable Index : Type.

(** [st.session_state] with the chat history. *)
Record AppState := {
  session : Session Index;
  chat_history : list ChatMessage
}.

Variable similarity_search : VectorStore Index -> string -> nat -> Exn + list Document.
Variable chain : list Document -> string -> Exn + string.

(** The "Send" button of [render_chat_interface]; [t_user] and [t_ai] are
    the two readings of the clock. *)
Definition send_question (app : AppState) (user_question t_user t_ai : string)
    : AppState * SendOutcome :=
  if Py.truthy user_question && Py.truthy (Py.strip user_question) then
    if (size (processed_documents (session app)) =? 0)%nat then (app, Refused)
    else
      let history := chat_history app ++ [UserMessage user_question t_user] in
      match process_question similarity_search chain (session app) user_question with
      | (inr response_data, log) =>
          ({| session := session app;
              chat_history :=
                history ++ [AiMessage (answer response_data) (sources response_data) t_ai] |},
           Answered log)
      | (inl e, log) =>
          ({| session := session app; chat_history := history |}, Crashed e log)
      end
  else (app, Ignored).

(** The "Clear Chat" button. *)
Definition clear_chat (app : AppState) : AppState :=
  {| session := session app; chat_history := [] |}.

(** The "Remove All" button of [render_document_management]. *)
Definition remove_all (app : AppState) : AppState :=
  {| session := {| vector_store := None; processed_documents := ∅ |};
     chat_history := [] |}.

(** [render_analytics]: [None] when there is no processed document. *)
Definition render_analytics (app : AppState) : option Stats :=
  let docs := processed_documents (session app) in
  if (size docs =? 0)%nat then None
  else Some {| total_docs := size docs;
               total_pages := map_fold (fun _ doc acc => (pages doc + acc)%nat) 0%nat docs;
               total_chunks := map_fold (fun _ doc acc => (chunks doc + acc)%nat) 0%nat docs;
               total_conversations := (length (chat_history app) / 2)%nat |}.

End App.

Arguments Build_AppState {Index} _ _.
Arguments session {Index} _.
Arguments chat_history {Index} _.
Arguments send_question {Index} _ _ _ _ _ _.
Arguments clear_chat {Index} _.
Arguments remove_all {Index} _.
Arguments render_analytics {Index} _.

(** ** The start-up scripts *)

(** ['GOOGLE_API_KEY=your_google_api_key_here'] *)
Definition placeholder : string := "GOOGLE_API_KEY=your_google_api_key_here".

(** [content.split('GOOGLE_API_KEY=')[1].split('\n')[0].strip()]: [None]
    when an index is out of range. *)
Definition api_key_of (content : string) : option string :=
  match Py.split "GOOGLE_API_KEY=" content with
  | _ :: value :: _ =>
      match Py.split Py.newline value with
      | line :: _ => Some (Py.strip line)
      | [] => None
      end
  | _ => None
  end.

(** The template that [setup.py] and [quick_start.py] write to [.env]. *)
Definition env_content : string :=
  "# Google AI API Configuration" +:+ Py.newline
  +:+ "# Get your API key from: https://makersuite.google.com/app/apikey" +:+ Py.newline
  +:+ "GOOGLE_API_KEY=your_google_api_key_here" +:+ Py.newline
  +:+ Py.newline
  +:+ "# Model Configuration" +:+ Py.newline
  +:+ "MODEL_NAME=gemini-2.0-flash-exp" +:+ Py.newline
  +:+ "TEMPERATURE=0.3" +:+ Py.newline
  +:+ Py.newline
  +:+ "# File Processing" +:+ Py.newline
  +:+ "MAX_FILE_SIZE_MB=50" +:+ Py.newline
  +:+ "CHUNK_SIZE=10000" +:+ Py.newline
  +:+ "CHUNK_OVERLAP=1000" +:+ Py.newline.

Module RunPy.

(** [check_api_key] of [run.py]; [dotenv] is the content of [.env] when
    the file exists.  The outer [None] is an [IndexError]. *)
Definition check_api_key (dotenv : option string) : option bool :=
  match dotenv with
  | None => Some false
  | Some content =>
      if Py.contains placeholder content then Some false
      else if Py.contains "GOOGLE_API_KEY=" content then
        match api_key_of content with
        | Some api_key => Some (10 <? String.length api_key)%nat
        | None => None
        end
      else Some false
  end.

End RunPy.

Module SetupPy.

(** [check_python_version] of [setup.py]. *)
Definition check_python_version (major minor : Z) : bool :=
  if (major <? 3) || ((major =? 3) && (minor <? 8)) then false else true.

(** [setup_environment] of [setup.py]: the result and the [.env] file
    it leaves. *)
Definition setup_environment (dotenv : option string) : bool * option string :=
  match dotenv with
  | Some content =>
      if Py.contains placeholder content then (false, dotenv)
      else if Py.contains "GOOGLE_API_KEY=" content then (true, dotenv)
      else (true, dotenv)
  | None => (false, Some env_content)
  end.

End SetupPy.

Module QuickStartPy.

(** What [check_environment] returns: [True], [False] or one of the two
    strings. *)
Inductive Status := Ready | NotReady | ApiKeyNeeded | EnvNeeded.

(** What [check_environment] looks at. *)
Record Environment := {
  py_major : Z;
  py_minor : Z;
  app_py_exists : bool;
  importable : string -> bool;
  dotenv : option string
}.

Definition required_modules : list string :=
  ["streamlit"; "google.generativeai"; "langchain"; "PyPDF2"].

(** [check_environment] of [quick_start.py]; the outer [None] is an
    [IndexError]. *)
Definition check_environment (env : Environment) : option Status :=
  if negb ((3 <=? py_major env) && (8 <=? py_minor env)) then Some NotReady
  else if negb (app_py_exists env) then Some NotReady
  else
    match filter (fun module => importable env module = false) required_modules with
    | _ :: _ => Some NotReady
    | [] =>
        match dotenv env with
        | Some content =>
            if Py.contains placeholder content then Some ApiKeyNeeded
            else if Py.contains "GOOGLE_API_KEY=" content then
              match api_key_of content with
              | Some api_key =>
                  if (20 <? String.length api_key)%nat then Some Ready
                  else Some ApiKeyNeeded
              | None => None
              end
            else Some Ready
        | None => Some EnvNeeded
        end
    end.

(** What [main] does next. *)
Inductive Action :=
| StartStreamlit
| CreateEnvFile
| ShowApiKeyInstructions
| ShowSetupHelp.

(** [main] of [quick_start.py]: its actions and the [.env] file it
    leaves; [None] is an [IndexError] out of [check_environment]. *)
Definition main (env : Environment) : option (list Action * option string) :=
  match check_environment env with
  | None => None
  | Some Ready => Some ([StartStreamlit], dotenv env)
  | Some ApiKeyNeeded => Some ([ShowApiKeyInstructions], dotenv env)
  | Some EnvNeeded => Some ([CreateEnvFile; ShowApiKeyInstructions], Some env_content)
  | Some NotReady => Some ([ShowSetupHelp], dotenv env)
  end.

End QuickStartPy.

(** ** More concrete values *)

Module Scenario.

(** The document of one short sentence. *)
Definition sky : UploadedFile :=
  {| name := "sky.pdf"; size_bytes := 900; reader := Pages [PageText "The sky is blue."] |}.

Definition second : UploadedFile :=
  {| name := "b.pdf"; size_bytes := 3000;
     reader := Pages [PageText EmptyString; PageText Demo.page_two; PageText Demo.page_one] |}.

Definition tale : string := "Tale of Two Cities.pdf".

Definition save_down : VectorStore unit -> option Exn := fun _ => Some "disk full".

Definition search_down : VectorStore unit -> string -> nat -> Exn + list Document :=
  fun _ _ _ => inl "index corrupted".

Definition ready_env (content : option string) : QuickStartPy.Environment :=
  {| QuickStartPy.py_major := 3; QuickStartPy.py_minor := 11;
     QuickStartPy.app_py_exists := true;
     QuickStartPy.importable := fun _ => true;
     QuickStartPy.dotenv := content |}.

Definition keyed : string :=
  "# Google AI API Configuration" +:+ Py.newline
  +:+ "GOOGLE_API_KEY= AIzaSyD-0123456789abcdefghij " +:+ Py.newline
  +:+ "MODEL_NAME=gemini-2.0-flash-exp" +:+ Py.newline.

End Scenario.

Example strip_ex : Py.strip "  a b  " = "a b". Proof. reflexivity. Qed.
Example split_ex : Py.split " of " "--- Page 1 of a of b ---" = ["--- Page 1"; "a"; "b ---"].
Proof. reflexivity. Qed.
Example split_ex2 : Py.split "aa" "aaa" = [EmptyString; "a"]. Proof. reflexivity. Qed.
Example split_ex3 : Py.split "," "a,,b," = ["a"; EmptyString; "b"; EmptyString]. Proof. reflexivity. Qed.
Example replace_ex : Py.replace " ---" EmptyString "a.pdf --- ---x" = "a.pdfx". Proof. reflexivity. Qed.
Example endswith_ex : Py.endswith (Py.lower "Report.PDF") ".pdf" = true. Proof. reflexivity. Qed.
Example str_ex : Py.str_of_nat 12 = "12" /\ Py.str_of_nat 0 = "0". Proof. split; reflexivity. Qed.
Example contains_ex : Py.contains "of" "roof" = true /\ Py.contains " of " "roof" = false.
Proof. split; reflexivity. Qed.

Example get_pdf_text_ex :
  (get_pdf_text [ {| name := "a.pdf"; size_bytes := 10;
                     reader := Pages [PageText "Hi"; PageText "  "; PageText "Yo"] |} ]).1
  = Py.newline +:+ Py.newline +:+ "--- Page 1 of a.pdf ---" +:+ Py.newline +:+ "Hi"
    +:+ Py.newline +:+ Py.newline +:+ "--- Page 3 of a.pdf ---" +:+ Py.newline +:+ "Yo".
Proof. reflexivity. Qed.

Example extract_source_info_ex :
  extract_source_info
    (get_pdf_text [ {| name := "a.pdf"; size_bytes := 10;
                       reader := Pages [PageText "Hi"; PageText "Yo"] |} ]).1
  = Some {| document := "a.pdf"; page := "1" |}.
Proof. reflexivity. Qed.


(** ** Lemmas on the string primitives *)

Lemma append_cons (c : ascii) (s t : string) : String c s +:+ t = String c (s +:+ t).
Proof. reflexivity. Qed.

Lemma append_empty_l (t : string) : EmptyString +:+ t = t.
Proof. reflexivity. Qed.

Lemma append_nil_r (s : string) : s +:+ EmptyString = s.
Proof. induction s as [|c s IH]; [reflexivity|]. rewrite append_cons, IH. reflexivity. Qed.

Lemma append_assoc (s t u : string) : (s +:+ t) +:+ u = s +:+ t +:+ u.
Proof. induction s as [|c s IH]; [reflexivity|]. rewrite !append_cons, IH. reflexivity. Qed.

Lemma split_go_not_nil (sep : string) (s : string) :
  forall skip, Py.split_go sep skip s <> [].
Proof.
  induction s as [|c s IH]; intros skip; cbn [Py.split_go]; [congruence|].
  destruct skip as [|k]; [|apply IH].
  destruct (String.prefix sep (String c s)); [congruence|].
  destruct (Py.split_go sep 0 s); congruence.
Qed.

(** Without an occurrence of the separator, [split] gives the string itself. *)
Lemma split_absent (sep s : string) :
  Py.contains sep s = false -> Py.split sep s = [s].
Proof.
  unfold Py.split. induction s as [|c s IH]; intros H; [reflexivity|].
  cbn [Py.contains] in H. apply orb_false_iff in H as [Hp Hc].
  cbn [Py.split_go]. rewrite Hp, (IH Hc). reflexivity.
Qed.

Lemma contains_prefix (sub s : string) :
  String.prefix sub s = true -> Py.contains sub s = true.
Proof. intros H. destruct s; cbn [Py.contains]; rewrite H; reflexivity. Qed.

Lemma contains_cons (sub : string) (c : ascii) (s : string) :
  Py.contains sub s = true -> Py.contains sub (String c s) = true.
Proof. intros H. cbn [Py.contains]. rewrite H. apply orb_true_r. Qed.

Lemma contains_append_r (sub a s : string) :
  Py.contains sub s = true -> Py.contains sub (a +:+ s) = true.
Proof.
  intros H. induction a as [|c a IH]; [exact H|].
  rewrite append_cons. apply contains_cons, IH.
Qed.

(** ** Lemmas on [extract_source_info] *)

Lemma first_marker_app (l1 l2 : list string) :
  first_marker (l1 ++ l2)
  = match first_marker l1 with Some c => Some c | None => first_marker l2 end.
Proof.
  induction l1 as [|l l1 IH]; [reflexivity|].
  simpl. destruct (parse_marker_line l); [reflexivity|exact IH].
Qed.

Lemma first_marker_none (ls : list string) :
  Forall (fun l => parse_marker_line l = None) ls -> first_marker ls = None.
Proof.
  induction 1 as [|l ls Hl _ IH]; [reflexivity|].
  simpl. rewrite Hl. exact IH.
Qed.

Lemma parse_without_marker (line : string) :
  Py.contains "--- Page" line = false -> parse_marker_line line = None.
Proof. intros H. unfold parse_marker_line. rewrite H. reflexivity. Qed.

Lemma parse_unmarked (line : string) :
  unmarked line = true -> parse_marker_line line = None.
Proof.
  unfold unmarked. intros H.
  apply orb_true_iff in H as [H|H]; [apply orb_true_iff in H as [H|H]|].
  - apply negb_true_iff in H. apply parse_without_marker, H.
  - apply negb_true_iff in H. unfold parse_marker_line.
    rewrite (split_absent _ _ H).
    destruct (_ && _); reflexivity.
  - apply negb_true_iff in H. unfold parse_marker_line.
    destruct (_ && _); [|reflexivity].
    destruct (Py.split " of " line) as [|p0 [|p1 rest]]; try reflexivity.
    simpl in H. rewrite (split_absent _ _ H). reflexivity.
Qed.

Lemma collect_sources_from (docs : list Document) (acc : list Citation) :
  fold_left
    (fun sources doc =>
       match extract_source_info (page_content doc) with
       | Some source_info => sources ++ [source_info]
       | None => sources
       end) docs acc
  = acc ++ omap (fun doc => extract_source_info (page_content doc)) docs.
Proof.
  revert acc. induction docs as [|d docs IH]; intros acc; simpl.
  - symmetry. apply app_nil_r.
  - rewrite IH. destruct (extract_source_info (page_content d)); [|reflexivity].
    rewrite <- app_assoc. reflexivity.
Qed.

(** The sources are the citations of the retrieved documents, in their
    order, one for each document that has one. *)
Lemma collect_sources_omap (docs : list Document) :
  collect_sources docs = omap (fun doc => extract_source_info (page_content doc)) docs.
Proof. unfold collect_sources. apply collect_sources_from. Qed.

Lemma omap_length_le {A B} (f : A -> option B) (l : list A) :
  (length (omap f l) <= length l)%nat.
Proof.
  induction l as [|a l IH]; [reflexivity|].
  change (omap f (a :: l))
    with (match f a with Some y => y :: omap f l | None => omap f l end).
  destruct (f a); simpl; lia.
Qed.

Lemma omap_length_lt {A B} (f : A -> option B) (l : list A) (a : A) :
  a ∈ l -> f a = None -> (length (omap f l) < length l)%nat.
Proof.
  induction 1 as [a l|a b l _ IH]; intros Ha.
  - change (omap f (a :: l))
      with (match f a with Some y => y :: omap f l | None => omap f l end).
    rewrite Ha. pose proof (omap_length_le f l). simpl. lia.
  - specialize (IH Ha).
    change (omap f (b :: l))
      with (match f b with Some y => y :: omap f l | None => omap f l end).
    destruct (f b); simpl; lia.
Qed.

(** ** Answering a question *)

Section Answering.

Context {Index : Type}.
Variable similarity_search : VectorStore Index -> string -> nat -> Exn + list Document.
Variable chain : list Document -> string -> Exn + string.

(** The run in which the search finds documents and the chain answers. *)
Lemma answered_run
    (st : Session Index) (vs : VectorStore Index) (question : string)
    (docs : list Document) (output_text : string) :
  vector_store st = Some vs ->
  similarity_search vs question 5 = inr docs ->
  docs <> [] ->
  chain docs question = inr output_text ->
  process_question similarity_search chain st question
  = (inr {| answer := output_text;
            sources := omap (fun doc => extract_source_info (page_content doc)) docs |},
     [Search question; Generate docs question]).
Proof.
  intros H Hs Hne Hc. unfold process_question, answer_from, call, bind.
  rewrite H, Hs. destruct docs as [|d docs]; [congruence|].
  rewrite Hc, collect_sources_omap. reflexivity.
Qed.

(** C3: with no index in the session, or with a search that returns no
    document, [process_question] returns a result whose answer states
    that condition ("Please upload and process documents first." for
    the missing index, "No relevant information found in the
    documents." for the empty search), whose sources are empty, and the
    generation chain is not called: the log of the run holds no
    [Generate] event. *)
Theorem empty_retrieval_answers_without_generation
    (st : Session Index) (question : string) :
  (vector_store st = None
   \/ exists vs, vector_store st = Some vs
                 /\ similarity_search vs question 5 = inr []) ->
  exists r log,
    process_question similarity_search chain st question = (inr r, log)
    /\ answer r = match vector_store st with
                  | None => "Please upload and process documents first."
                  | Some _ => "No relevant information found in the documents."
                  end
    /\ sources r = []
    /\ forall docs q, Generate docs q ∉ log.
Proof.
  intros [H|(vs & H & Hs)]; unfold process_question, answer_from, call, bind;
    rewrite H; [|rewrite Hs]; simpl; eexists _, _;
    (split; [reflexivity|]); simpl; (split; [reflexivity|]);
    (split; [reflexivity|]); intros docs q Hin.
  - inversion Hin.
  - apply list_elem_of_singleton in Hin. discriminate.
Qed.

(** C7: when the search returns documents and the chain answers, the
    sources of the result are the citations of the retrieved documents
    in retrieval order, one per document that carries a citation:
    nothing is reordered and equal citations are all kept. *)
Theorem sources_follow_retrieval_order
    (st : Session Index) (vs : VectorStore Index) (question : string)
    (docs : list Document) (output_text : string) :
  vector_store st = Some vs ->
  similarity_search vs question 5 = inr docs ->
  docs <> [] ->
  chain docs question = inr output_text ->
  process_question similarity_search chain st question
  = (inr {| answer := output_text;
            sources := omap (fun doc => extract_source_info (page_content doc)) docs |},
     [Search question; Generate docs question]).
Proof.
  apply answered_run.
Qed.

(** C8: [process_question] never lets an exception through: every run
    ends with a result.  When the generation chain raises [e], the
    result is the answer "Error processing question: e" with no
    sources. *)
Theorem generation_failure_is_answered
    (st : Session Index) (question : string) :
  (exists r log, process_question similarity_search chain st question = (inr r, log))
  /\ (forall vs docs e,
        vector_store st = Some vs ->
        similarity_search vs question 5 = inr docs ->
        docs <> [] ->
        chain docs question = inl e ->
        process_question similarity_search chain st question
        = (inr {| answer := "Error processing question: " +:+ e; sources := [] |},
           [Search question; Generate docs question])).
Proof.
  split.
  - unfold process_question, answer_from, call, bind, try_except, ret.
    destruct (vector_store st) as [vs|]; [|eauto].
    destruct (similarity_search vs question 5) as [e|[|d docs]]; [eauto..|].
    destruct (chain (d :: docs) question); eauto.
  - intros vs docs e H Hs Hne Hc.
    unfold process_question, answer_from, call, bind.
    rewrite H, Hs. destruct docs as [|d docs]; [congruence|].
    rewrite Hc. reflexivity.
Qed.

(** C10: a retrieved document none of whose lines holds both the
    ['--- Page'] marker and [' of '] with the marker before the
    separator has no citation; the question is still answered, with a
    source list shorter than the list of retrieved documents. *)
Theorem unmarked_chunk_gives_no_citation
    (st : Session Index) (vs : VectorStore Index) (question : string)
    (docs : list Document) (output_text : string) (d : Document) :
  vector_store st = Some vs ->
  similarity_search vs question 5 = inr docs ->
  chain docs question = inr output_text ->
  d ∈ docs ->
  Forall (fun line => unmarked line = true)
         (Py.split Py.newline (page_content d)) ->
  extract_source_info (page_content d) = None
  /\ exists r log,
       process_question similarity_search chain st question = (inr r, log)
       /\ answer r = output_text
       /\ sources r = omap (fun doc => extract_source_info (page_content doc)) docs
       /\ (length (sources r) < length docs)%nat.
Proof.
  intros H Hs Hc Hd Hlines.
  assert (Hnone : extract_source_info (page_content d) = None).
  { unfold extract_source_info. apply first_marker_none.
    eapply Forall_impl; [exact Hlines|]. intros l Hl. apply parse_unmarked, Hl. }
  split; [exact Hnone|].
  assert (Hne : docs <> []) by (intros ->; inversion Hd).
  rewrite (answered_run st vs question docs output_text H Hs Hne Hc).
  eexists _, _. split; [reflexivity|]. simpl.
  split; [reflexivity|]. split; [reflexivity|].
  exact (omap_length_lt _ docs d Hd Hnone).
Qed.

End Answering.

(** ** Extraction *)

Lemma read_pages_spans (doc_name : string) (ps : list PageResult) :
  forall page_num text,
    (read_pages doc_name page_num ps text).1
    = text +:+ concat_spans (page_spans doc_name page_num ps).
Proof.
  induction ps as [|[page_text|e] ps IH]; intros page_num text; simpl.
  - symmetry. apply append_nil_r.
  - rewrite IH. destruct (Py.truthy (Py.strip page_text)); simpl; [|reflexivity].
    rewrite !append_assoc. reflexivity.
  - symmetry. apply append_nil_r.
Qed.

Lemma read_pages_all_text (doc_name : string) (ps : list PageResult) :
  Forall (fun p => is_page_text p = true) ps ->
  forall page_num text, (read_pages doc_name page_num ps text).2 = None.
Proof.
  induction 1 as [|[page_text|e] ps Hp _ IH]; intros page_num text; simpl;
    [reflexivity|apply IH|discriminate].
Qed.

(** A page that raises ends the page loop: what the pages before it
    appended stays, the pages after it are not read. *)
Lemma read_pages_raise (doc_name : string) (e : Exn) (before after : list PageResult) :
  Forall (fun p => is_page_text p = true) before ->
  forall page_num text,
    read_pages doc_name page_num (before ++ PageError e :: after) text
    = ((read_pages doc_name page_num before text).1, Some e).
Proof.
  induction 1 as [|[page_text|e'] ps Hp _ IH]; intros page_num text; simpl;
    [reflexivity|apply IH|discriminate].
Qed.

(** C6, as the code has it: a page whose text is blank adds nothing and
    the loop goes on; a page whose [extract_text] raises ends the
    extraction of that document: the text of the pages before it is kept,
    the pages after it are dropped whether they decode or not, the error
    is reported and extraction goes on with the next document. *)
Theorem failing_page_ends_the_document
    (d : UploadedFile) (rest : list UploadedFile)
    (before after : list PageResult) (e : Exn) :
  reader d = Pages (before ++ PageError e :: after) ->
  Forall (fun p => is_page_text p = true) before ->
  let kept := {| name := name d; size_bytes := size_bytes d; reader := Pages before |} in
  get_pdf_text (d :: rest)
  = ((get_pdf_text (kept :: rest)).1,
     Shown (ErrReading (name d) e) :: (get_pdf_text (kept :: rest)).2)
  /\ (forall blank more page_num text,
        Py.strip blank = EmptyString ->
        read_pages (name d) page_num (PageText blank :: more) text
        = read_pages (name d) (S page_num) more text).
Proof.
  intros Hd Hbefore kept. split.
  - unfold get_pdf_text. cbn [get_pdf_text_from]. unfold read_doc.
    rewrite Hd. cbn [reader kept name].
    rewrite (read_pages_raise _ e before after Hbefore).
    pose proof (read_pages_all_text (name d) before Hbefore 0%nat EmptyString) as Hnone.
    destruct (read_pages (name d) 0 before EmptyString) as [text raised].
    simpl in Hnone. subst raised. cbn [fst].
    destruct (get_pdf_text_from rest text) as [text' log']. reflexivity.
  - intros blank more page_num text Hblank. cbn [read_pages].
    rewrite Hblank. reflexivity.
Qed.

(** C6 as stated fails: the third page of [Demo.damaged] decodes, but the
    second raises, and the text of the document holds page 1 only. *)
Lemma failing_page_drops_later_pages :
  reader Demo.damaged
  = Pages [PageText Demo.page_one; PageError "cannot decode page"; PageText Demo.page_two]
  /\ (get_pdf_text [Demo.damaged]).1 = page_marker 0 "d.pdf" +:+ Demo.page_one
  /\ Py.contains (marker_line 2 "d.pdf") (get_pdf_text [Demo.damaged]).1 = false
  /\ Py.contains Demo.page_two (get_pdf_text [Demo.damaged]).1 = false.
Proof. repeat split; vm_compute; reflexivity. Qed.

Lemma failing_page_ends_the_document_witness :
  get_pdf_text [Demo.damaged]
  = (page_marker 0 "d.pdf" +:+ Demo.page_one,
     [Shown (ErrReading "d.pdf" "cannot decode page")]).
Proof.
  pose proof (failing_page_ends_the_document Demo.damaged []
                [PageText Demo.page_one] [PageText Demo.page_two]
                "cannot decode page" eq_refl
                ltac:(repeat constructor)) as [H _].
  rewrite H. vm_compute. reflexivity.
Defined.

(** ** Chunking and ingestion *)

Section Ingestion.

Context {Index : Type}.
Variables MAX_FILE_SIZE_MB CHUNK_SIZE CHUNK_OVERLAP : Z.
Variable RecursiveCharacterTextSplitter : Z -> Z -> Exn + (string -> list string).
Variable embed_documents : list string -> Exn + Index.
Variable save_local : VectorStore Index -> option Exn.
Variable now : nat -> string.

(** C1: every chunk [get_text_chunks] returns has a trimmed length of at
    least 100 (the code keeps the chunks with more than 100 characters
    after trimming), and no chunk of the splitter whose trimmed length
    is below 100 is among them. *)
Theorem chunks_reach_minimum_length (text : string) (chunks : list string) :
  get_text_chunks CHUNK_SIZE CHUNK_OVERLAP RecursiveCharacterTextSplitter text
  = inr chunks ->
  Forall (fun chunk => (100 <= String.length (Py.strip chunk))%nat) chunks
  /\ Forall (fun chunk => (100 < String.length (Py.strip chunk))%nat) chunks
  /\ forall split_text chunk,
       RecursiveCharacterTextSplitter CHUNK_SIZE CHUNK_OVERLAP = inr split_text ->
       chunk ∈ split_text text ->
       (String.length (Py.strip chunk) < 100)%nat ->
       chunk ∉ chunks.
Proof.
  unfold get_text_chunks. intros H.
  destruct (RecursiveCharacterTextSplitter CHUNK_SIZE CHUNK_OVERLAP)
    as [e|split_text]; [discriminate|].
  injection H as <-.
  assert (Hall : Forall (fun chunk => (100 < String.length (Py.strip chunk))%nat)
                   (filter (fun chunk => (100 < String.length (Py.strip chunk))%nat)
                           (split_text text))).
  { apply Forall_forall. intros c Hc. apply list_elem_of_filter in Hc as [Hc _]. exact Hc. }
  split; [|split; [exact Hall|]].
  - eapply Forall_impl; [exact Hall|]. intros c Hc. simpl in Hc. lia.
  - intros split_text' c Heq Hin Hshort Hc. injection Heq as <-.
    apply list_elem_of_filter in Hc as [Hc _]. lia.
Qed.

(** What one iteration of the loop does to the loop variables: a file
    that adds no chunk leaves them as they are; a file that adds chunks
    extends the chunk list, counts as processed and writes its entry. *)
Lemma process_file_batch (i : nat) (f : UploadedFile) (b : Batch) :
  let added := chunks_of MAX_FILE_SIZE_MB CHUNK_SIZE CHUNK_OVERLAP
                 RecursiveCharacterTextSplitter f in
  let b' := (process_file MAX_FILE_SIZE_MB CHUNK_SIZE CHUNK_OVERLAP
               RecursiveCharacterTextSplitter now i f b).1 in
  (added = [] /\ b' = b)
  \/ (added <> []
      /\ exists ps,
           reader f = Pages ps
           /\ b' = {| all_text_chunks := all_text_chunks b ++ added;
                      processed_count := S (processed_count b);
                      registry :=
                        <[ name f := {| pages := length ps;
                                        chunks := length added;
                                        size_mb := size_bytes f;
                                        processed_time := now i |} ]> (registry b) |}).
Proof.
  unfold chunks_of, process_file. cbv zeta.
  destruct (validate_pdf_file MAX_FILE_SIZE_MB f) as [why|] eqn:Hv; [left; split; reflexivity|].
  destruct (get_pdf_text [f]) as [text log]. cbn [fst].
  destruct (negb (Py.truthy (Py.strip text))); [left; split; reflexivity|].
  destruct (get_text_chunks CHUNK_SIZE CHUNK_OVERLAP RecursiveCharacterTextSplitter text)
    as [e|[|c cs]]; [left; split; reflexivity..|].
  right. split; [congruence|].
  unfold validate_pdf_file in Hv.
  destruct (_ <? _); [discriminate|].
  destruct (negb _); [discriminate|].
  destruct (reader f) as [e|[|p ps]]; [discriminate..|].
  eexists. split; reflexivity.
Qed.

Lemma process_files_chunks (files : list UploadedFile) :
  forall i b,
    all_text_chunks (process_files MAX_FILE_SIZE_MB CHUNK_SIZE CHUNK_OVERLAP
                       RecursiveCharacterTextSplitter now i files b).1
    = all_text_chunks b
      ++ flat_map (chunks_of MAX_FILE_SIZE_MB CHUNK_SIZE CHUNK_OVERLAP
                     RecursiveCharacterTextSplitter) files.
Proof.
  induction files as [|f files IH]; intros i b; cbn [process_files flat_map].
  - symmetry. apply app_nil_r.
  - pose proof (process_file_batch i f b) as Hf. cbv zeta in Hf.
    destruct (process_file _ _ _ _ _ i f b) as [b' log] eqn:Hp.
    specialize (IH (S i) b').
    destruct (process_files _ _ _ _ _ (S i) files b') as [b'' log'].
    cbn [fst] in *. rewrite IH.
    destruct Hf as [[-> ->]|(_ & ps & _ & ->)]; [reflexivity|].
    cbn [all_text_chunks]. rewrite <- app_assoc. reflexivity.
Qed.

(** The entry of a name that no file of the batch carries is not touched. *)
Lemma process_files_registry_other (n : string) (files : list UploadedFile) :
  (forall f, f ∈ files -> name f <> n) ->
  forall i b,
    registry (process_files MAX_FILE_SIZE_MB CHUNK_SIZE CHUNK_OVERLAP
                RecursiveCharacterTextSplitter now i files b).1 !! n
    = registry b !! n.
Proof.
  induction files as [|f files IH]; intros Hn i b; cbn [process_files]; [reflexivity|].
  pose proof (process_file_batch i f b) as Hf. cbv zeta in Hf.
  destruct (process_file _ _ _ _ _ i f b) as [b' log] eqn:Hp.
  assert (Hrest : forall g, g ∈ files -> name g <> n)
    by (intros g Hg; apply Hn; right; exact Hg).
  specialize (IH Hrest (S i) b').
  destruct (process_files _ _ _ _ _ (S i) files b') as [b'' log'].
  cbn [fst] in *. rewrite IH.
  destruct Hf as [[_ ->]|(_ & ps & _ & ->)]; [reflexivity|].
  cbn [registry]. apply lookup_insert_ne, Hn. left.
Qed.

(** After the loop an entry is the one before it, or the entry written
    for a file of the batch that added chunks. *)
Lemma process_files_registry (n : string) (files : list UploadedFile) :
  forall i b,
    let b' := (process_files MAX_FILE_SIZE_MB CHUNK_SIZE CHUNK_OVERLAP
                 RecursiveCharacterTextSplitter now i files b).1 in
    registry b' !! n = registry b !! n
    \/ exists f ps m,
         f ∈ files /\ name f = n /\ reader f = Pages ps
         /\ chunks_of MAX_FILE_SIZE_MB CHUNK_SIZE CHUNK_OVERLAP
              RecursiveCharacterTextSplitter f <> []
         /\ registry b' !! n = Some m
         /\ pages m = length ps
         /\ chunks m = length (chunks_of MAX_FILE_SIZE_MB CHUNK_SIZE CHUNK_OVERLAP
                                 RecursiveCharacterTextSplitter f).
Proof.
  induction files as [|f files IH]; intros i b; cbn [process_files]; [left; reflexivity|].
  pose proof (process_file_batch i f b) as Hf. cbv zeta in Hf.
  destruct (process_file _ _ _ _ _ i f b) as [b' log] eqn:Hp.
  specialize (IH (S i) b'). cbv zeta in IH.
  destruct (process_files _ _ _ _ _ (S i) files b') as [b'' log'].
  cbn [fst] in *.
  destruct IH as [IH|(g & ps & m & Hg & Hname & Hr & Hc & Hm & Hpages & Hchunks)].
  - rewrite IH.
    destruct Hf as [[_ ->]|(Hadd & ps & Hr & ->)]; [left; reflexivity|].
    cbn [registry]. destruct (decide (name f = n)) as [Heq|Hne].
    + right. exists f, ps. eexists. split; [left|].
      split; [exact Heq|]. split; [exact Hr|]. split; [exact Hadd|].
      rewrite <- Heq, lookup_insert_eq. split; [reflexivity|]. split; reflexivity.
    + left. apply lookup_insert_ne, Hne.
  - right. exists g, ps, m. split; [right; exact Hg|]. repeat split; assumption.
Qed.

(** After the loop, a file that added chunks has an entry written by
    the loop for a file of its name. *)
Lemma process_files_registry_written (files : list UploadedFile) :
  forall i b f,
    f ∈ files ->
    chunks_of MAX_FILE_SIZE_MB CHUNK_SIZE CHUNK_OVERLAP
      RecursiveCharacterTextSplitter f <> [] ->
    exists g ps m,
      g ∈ files /\ name g = name f /\ reader g = Pages ps
      /\ registry (process_files MAX_FILE_SIZE_MB CHUNK_SIZE CHUNK_OVERLAP
                     RecursiveCharacterTextSplitter now i files b).1
         !! name f = Some m
      /\ pages m = length ps
      /\ chunks m = length (chunks_of MAX_FILE_SIZE_MB CHUNK_SIZE CHUNK_OVERLAP
                              RecursiveCharacterTextSplitter g).
Proof.
  induction files as [|h rest IH]; intros i b f Hf Hc; [inversion Hf|].
  cbn [process_files].
  pose proof (process_file_batch i h b) as Hh. cbv zeta in Hh.
  destruct (process_file _ _ _ _ _ i h b) as [b' l'] eqn:Hp.
  pose proof (process_files_registry (name f) rest (S i) b') as Hrest.
  cbv zeta in Hrest. specialize (IH (S i) b' f).
  destruct (process_files _ _ _ _ _ (S i) rest b') as [b'' l''] eqn:Hp'.
  cbn [fst] in *.
  apply elem_of_cons in Hf as [->|Hin].
  - destruct Hrest as [Hsame|(g & ps & m & Hg & Hname & Hr & _ & Hm & Hpages & Hchunks)].
    + destruct Hh as [[Hnil _]|(_ & ps & Hrd & ->)]; [congruence|].
      exists h, ps. eexists. split; [left|]. split; [reflexivity|].
      split; [exact Hrd|]. rewrite Hsame. cbn [registry].
      rewrite lookup_insert_eq. repeat split; reflexivity.
    + exists g, ps, m. split; [right; exact Hg|]. repeat split; assumption.
  - destruct (IH Hin Hc) as (g & ps & m & Hg & Hname & Hr & Hm & Hpages & Hchunks).
    exists g, ps, m. split; [right; exact Hg|]. repeat split; assumption.
Qed.

(** What [process_documents] leaves in the session. *)
Lemma process_documents_session (st : Session Index) (files : list UploadedFile) :
  let added := flat_map (chunks_of MAX_FILE_SIZE_MB CHUNK_SIZE CHUNK_OVERLAP
                           RecursiveCharacterTextSplitter) files in
  let st' := (process_documents MAX_FILE_SIZE_MB CHUNK_SIZE CHUNK_OVERLAP
                RecursiveCharacterTextSplitter embed_documents save_local now
                st files).1 in
  processed_documents st'
  = registry (process_files MAX_FILE_SIZE_MB CHUNK_SIZE CHUNK_OVERLAP
                RecursiveCharacterTextSplitter now 0 files (new_batch st)).1
  /\ vector_store st'
     = match added with
       | [] => vector_store st
       | _ => match (get_vector_store embed_documents save_local added).1 with
              | Some vs => Some vs
              | None => vector_store st
              end
       end.
Proof.
  cbv zeta. unfold process_documents.
  pose proof (process_files_chunks files 0 (new_batch st)) as Hc.
  destruct (process_files _ _ _ _ _ 0 files (new_batch st)) as [b log].
  cbn [fst new_batch all_text_chunks app] in Hc. cbn [fst]. rewrite Hc.
  destruct (flat_map _ files) as [|c cs]; [split; reflexivity|].
  destruct (get_vector_store embed_documents save_local (c :: cs)) as [[vs|] log'];
    split; reflexivity.
Qed.

Lemma get_vector_store_embed_fails (text_chunks : list string) (e : Exn) :
  embed_documents text_chunks = inl e ->
  get_vector_store embed_documents save_local text_chunks
  = (None, [Embed text_chunks; Shown (ErrVectorStore e)]).
Proof. intros H. unfold get_vector_store, from_texts. rewrite H. reflexivity. Qed.

Lemma get_vector_store_docstore (text_chunks : list string)
    (vs : VectorStore Index) (log : list Event) :
  get_vector_store embed_documents save_local text_chunks = (Some vs, log) ->
  docstore vs = text_chunks.
Proof.
  unfold get_vector_store, from_texts.
  destruct (embed_documents text_chunks) as [e|ix]; [discriminate|].
  destruct (save_local _); [discriminate|].
  intros H. injection H as <- _. reflexivity.
Qed.

(** C4: when the embedding backend raises on the chunks of the batch,
    [process_documents] leaves the index reference of the session as it
    was, and every question is answered afterwards exactly as it was
    answered before the call. *)
Theorem failed_build_keeps_index
    (st : Session Index) (files : list UploadedFile) (e : Exn) :
  embed_documents
    (flat_map (chunks_of MAX_FILE_SIZE_MB CHUNK_SIZE CHUNK_OVERLAP
                 RecursiveCharacterTextSplitter) files) = inl e ->
  let st' := (process_documents MAX_FILE_SIZE_MB CHUNK_SIZE CHUNK_OVERLAP
                RecursiveCharacterTextSplitter embed_documents save_local now
                st files).1 in
  vector_store st' = vector_store st
  /\ forall similarity_search chain question,
       process_question similarity_search chain st' question
       = process_question similarity_search chain st question.
Proof.
  intros He st'.
  assert (Hvs : vector_store st' = vector_store st).
  { destruct (process_documents_session st files) as [_ Hvs].
    fold st' in Hvs. rewrite Hvs.
    rewrite (get_vector_store_embed_fails _ e He).
    destruct (flat_map _ files); reflexivity. }
  split; [exact Hvs|].
  intros similarity_search chain question.
  unfold process_question. rewrite Hvs. reflexivity.
Qed.

(** C9, as the code has it: a call of [process_documents] in which some
    file adds chunks and the build of the vector store succeeds puts in
    the session a store that holds exactly the chunks of the files of
    that call, in order, whatever the session held before; in the
    registry the entry of a name carried by no file of the call is as
    it was, and the entry of a file that added chunks is one written by
    this call for a file of that name. *)
Theorem rebuild_holds_the_batch
    (st : Session Index) (files : list UploadedFile)
    (vs : VectorStore Index) (log : list Event) :
  let added := flat_map (chunks_of MAX_FILE_SIZE_MB CHUNK_SIZE CHUNK_OVERLAP
                           RecursiveCharacterTextSplitter) files in
  added <> [] ->
  get_vector_store embed_documents save_local added = (Some vs, log) ->
  let st' := (process_documents MAX_FILE_SIZE_MB CHUNK_SIZE CHUNK_OVERLAP
                RecursiveCharacterTextSplitter embed_documents save_local now
                st files).1 in
  vector_store st' = Some vs
  /\ docstore vs = added
  /\ (forall n, (forall f, f ∈ files -> name f <> n) ->
                processed_documents st' !! n = processed_documents st !! n)
  /\ (forall f, f ∈ files ->
        chunks_of MAX_FILE_SIZE_MB CHUNK_SIZE CHUNK_OVERLAP
          RecursiveCharacterTextSplitter f <> [] ->
        exists g ps m,
          g ∈ files /\ name g = name f /\ reader g = Pages ps
          /\ processed_documents st' !! name f = Some m
          /\ pages m = length ps
          /\ chunks m = length (chunks_of MAX_FILE_SIZE_MB CHUNK_SIZE CHUNK_OVERLAP
                                  RecursiveCharacterTextSplitter g)).
Proof.
  intros added Hadd Hbuild st'.
  destruct (process_documents_session st files) as [Hreg Hvs].
  fold st' added in Hreg, Hvs.
  split; [|split; [|split]].
  - rewrite Hvs, Hbuild. destruct added; [congruence|reflexivity].
  - apply (get_vector_store_docstore _ _ _ Hbuild).
  - intros n Hn. rewrite Hreg.
    apply (process_files_registry_other n files Hn).
  - intros f Hf Hc. rewrite Hreg.
    apply (process_files_registry_written files 0%nat (new_batch st) f Hf Hc).
Qed.

Lemma get_text_chunks_raises (text : string) (e : Exn) :
  get_text_chunks CHUNK_SIZE CHUNK_OVERLAP RecursiveCharacterTextSplitter text = inl e
  <-> RecursiveCharacterTextSplitter CHUNK_SIZE CHUNK_OVERLAP = inl e.
Proof.
  unfold get_text_chunks.
  destruct (RecursiveCharacterTextSplitter CHUNK_SIZE CHUNK_OVERLAP); split; congruence.
Qed.

(** With a splitter that rejects the configuration, an iteration leaves
    the loop variables as they are, and reports the error for a file
    that passed validation and has text. *)
Lemma process_file_rejected (e : Exn) (i : nat) (f : UploadedFile) (b : Batch) :
  RecursiveCharacterTextSplitter CHUNK_SIZE CHUNK_OVERLAP = inl e ->
  exists log,
    process_file MAX_FILE_SIZE_MB CHUNK_SIZE CHUNK_OVERLAP
      RecursiveCharacterTextSplitter now i f b = (b, log)
    /\ (validate_pdf_file MAX_FILE_SIZE_MB f = None ->
        Py.truthy (Py.strip (get_pdf_text [f]).1) = true ->
        Shown (ErrProcessing (name f) e) ∈ log).
Proof.
  intros He. unfold process_file.
  destruct (validate_pdf_file MAX_FILE_SIZE_MB f) as [why|].
  { eexists. split; [reflexivity|]. discriminate. }
  destruct (get_pdf_text [f]) as [text log]. cbn [fst].
  destruct (Py.truthy (Py.strip text)); cbn [negb].
  { rewrite (proj2 (get_text_chunks_raises text e) He).
    eexists. split; [reflexivity|]. intros _ _.
    apply elem_of_app. right. left. }
  eexists. split; [reflexivity|]. discriminate.
Qed.

Lemma process_files_rejected (e : Exn) (files : list UploadedFile) :
  RecursiveCharacterTextSplitter CHUNK_SIZE CHUNK_OVERLAP = inl e ->
  forall i b,
  exists log,
    process_files MAX_FILE_SIZE_MB CHUNK_SIZE CHUNK_OVERLAP
      RecursiveCharacterTextSplitter now i files b = (b, log)
    /\ (forall f, f ∈ files ->
        validate_pdf_file MAX_FILE_SIZE_MB f = None ->
        Py.truthy (Py.strip (get_pdf_text [f]).1) = true ->
        Shown (ErrProcessing (name f) e) ∈ log).
Proof.
  intros He. induction files as [|h rest IH]; intros i b; cbn [process_files].
  - eexists. split; [reflexivity|]. intros f Hf. inversion Hf.
  - destruct (process_file_rejected e i h b He) as (l1 & -> & H1).
    destruct (IH (S i) b) as (l2 & -> & H2).
    eexists. split; [reflexivity|].
    intros f Hf Hv Ht. apply elem_of_app.
    apply elem_of_cons in Hf as [->|Hin]; [left; auto|right; auto].
Qed.

(** C5, as the code has it: [get_text_chunks] makes no check of the
    chunk size and overlap of its own; it raises exactly when the
    constructor of the splitter raises, with that error.  When it does,
    [process_documents] does not fail: the error arises once for each
    file that passed validation and has text, after that file was read,
    is reported for that file, and the loop goes on; the session is
    left as it was and the run ends with the notice that no document
    was processed. *)
Theorem config_error_is_reported_per_file :
  (forall text e,
     get_text_chunks CHUNK_SIZE CHUNK_OVERLAP RecursiveCharacterTextSplitter text = inl e
     <-> RecursiveCharacterTextSplitter CHUNK_SIZE CHUNK_OVERLAP = inl e)
  /\ (forall e,
        RecursiveCharacterTextSplitter CHUNK_SIZE CHUNK_OVERLAP = inl e ->
        forall (st : Session Index) files,
        exists log,
          process_documents MAX_FILE_SIZE_MB CHUNK_SIZE CHUNK_OVERLAP
            RecursiveCharacterTextSplitter embed_documents save_local now st files
          = (st, log)
          /\ last log = Some (Shown ErrNoneProcessed)
          /\ (forall f, f ∈ files ->
                validate_pdf_file MAX_FILE_SIZE_MB f = None ->
                Py.truthy (Py.strip (get_pdf_text [f]).1) = true ->
                Shown (ErrProcessing (name f) e) ∈ log)).
Proof.
  split; [apply get_text_chunks_raises|].
  intros e He st files. unfold process_documents.
  destruct (process_files_rejected e files He 0%nat (new_batch st)) as (log & -> & Hlog).
  cbn [new_batch all_text_chunks registry]. destruct st as [vs reg].
  eexists. split; [reflexivity|]. split; [apply last_snoc|].
  intros f Hf Hv Ht. apply elem_of_app. left. auto.
Qed.

End Ingestion.

(** ** The properties on concrete runs *)

Lemma chunks_reach_minimum_length_witness :
  get_text_chunks 10000 1000 Demo.with_fragment (Demo.text_of Demo.one_page)
  = inr [Py.strip (Demo.text_of Demo.one_page)]
  /\ Forall (fun chunk => (100 <= String.length (Py.strip chunk))%nat)
            [Py.strip (Demo.text_of Demo.one_page)]
  /\ "Page 2" ∉ [Py.strip (Demo.text_of Demo.one_page)].
Proof.
  assert (H : get_text_chunks 10000 1000 Demo.with_fragment (Demo.text_of Demo.one_page)
              = inr [Py.strip (Demo.text_of Demo.one_page)])
    by (vm_compute; reflexivity).
  split; [exact H|].
  destruct (chunks_reach_minimum_length 10000 1000 Demo.with_fragment _ _ H)
    as (H1 & _ & H3).
  split; [exact H1|].
  apply (H3 _ "Page 2" eq_refl).
  - right. left.
  - vm_compute. lia.
Defined.

Lemma empty_retrieval_answers_without_generation_witness :
  (exists r log,
     process_question Demo.search_all Demo.chain_ok Demo.empty_session "What is stored?"
     = (inr r, log)
     /\ answer r = "Please upload and process documents first."
     /\ sources r = []
     /\ forall docs q, Generate docs q ∉ log)
  /\ (exists r log,
        process_question Demo.search_none Demo.chain_ok Demo.old_session "What is stored?"
        = (inr r, log)
        /\ answer r = "No relevant information found in the documents."
        /\ sources r = []
        /\ forall docs q, Generate docs q ∉ log).
Proof.
  split.
  - apply (empty_retrieval_answers_without_generation
             Demo.search_all Demo.chain_ok Demo.empty_session "What is stored?").
    left. reflexivity.
  - apply (empty_retrieval_answers_without_generation
             Demo.search_none Demo.chain_ok Demo.old_session "What is stored?").
    right. exists Demo.old_store. split; reflexivity.
Defined.

Lemma sources_follow_retrieval_order_witness :
  process_question Demo.search_retrieved Demo.chain_ok Demo.old_session "What do panels do?"
  = (inr {| answer := "Solar panels convert sunlight into electricity.";
            sources := [ {| document := "a.pdf"; page := "1" |};
                         {| document := "a.pdf"; page := "1" |} ] |},
     [Search "What do panels do?"; Generate Demo.retrieved "What do panels do?"]).
Proof.
  apply (sources_follow_retrieval_order Demo.search_retrieved Demo.chain_ok
           Demo.old_session Demo.old_store "What do panels do?" Demo.retrieved
           "Solar panels convert sunlight into electricity.");
    [reflexivity|reflexivity|discriminate|reflexivity].
Defined.

Lemma generation_failure_is_answered_witness :
  process_question Demo.search_retrieved Demo.chain_down Demo.old_session "What do panels do?"
  = (inr {| answer := "Error processing question: 503 service unavailable";
            sources := [] |},
     [Search "What do panels do?"; Generate Demo.retrieved "What do panels do?"]).
Proof.
  apply (proj2 (generation_failure_is_answered Demo.search_retrieved Demo.chain_down
                  Demo.old_session "What do panels do?")
           Demo.old_store Demo.retrieved "503 service unavailable");
    [reflexivity|reflexivity|discriminate|reflexivity].
Defined.

Lemma unmarked_chunk_gives_no_citation_witness :
  extract_source_info "surplus for the evening hours." = None
  /\ exists r log,
       process_question Demo.search_retrieved Demo.chain_ok Demo.old_session "q" = (inr r, log)
       /\ answer r = "Solar panels convert sunlight into electricity."
       /\ sources r = omap (fun doc => extract_source_info (page_content doc)) Demo.retrieved
       /\ (length (sources r) < 3)%nat.
Proof.
  apply (unmarked_chunk_gives_no_citation Demo.search_retrieved Demo.chain_ok
           Demo.old_session Demo.old_store "q" Demo.retrieved
           "Solar panels convert sunlight into electricity."
           {| page_content := "surplus for the evening hours." |});
    [reflexivity|reflexivity|reflexivity| |].
  - right. left.
  - vm_compute. repeat constructor.
Defined.

Lemma failed_build_keeps_index_witness :
  let st' := (process_documents 50 10000 1000 Demo.whole_text Demo.embed_down
                Demo.save_ok Demo.clock Demo.old_session [Demo.two_pages]).1 in
  vector_store st' = Some Demo.old_store
  /\ forall similarity_search chain question,
       process_question similarity_search chain st' question
       = process_question similarity_search chain Demo.old_session question.
Proof.
  apply (failed_build_keeps_index 50 10000 1000 Demo.whole_text Demo.embed_down
           Demo.save_ok Demo.clock Demo.old_session [Demo.two_pages]
           "429 quota exceeded").
  reflexivity.
Defined.

Lemma rebuild_holds_the_batch_witness :
  let st' := (process_documents 50 10000 1000 Demo.whole_text Demo.embed_ok
                Demo.save_ok Demo.clock Demo.old_session [Demo.two_pages]).1 in
  vector_store st'
  = Some {| docstore := [Py.strip (Demo.text_of Demo.two_pages)]; index := tt |}
  /\ processed_documents st' !! "b.pdf" = processed_documents Demo.old_session !! "b.pdf"
  /\ exists m, processed_documents st' !! "a.pdf" = Some m /\ pages m = 2%nat.
Proof.
  destruct (rebuild_holds_the_batch 50 10000 1000 Demo.whole_text Demo.embed_ok
              Demo.save_ok Demo.clock Demo.old_session [Demo.two_pages]
              {| docstore := [Py.strip (Demo.text_of Demo.two_pages)]; index := tt |}
              [Embed [Py.strip (Demo.text_of Demo.two_pages)]])
    as (H1 & _ & H3 & H4).
  - vm_compute. discriminate.
  - vm_compute. reflexivity.
  - split; [exact H1|]. split.
    + apply H3. intros f Hf. apply list_elem_of_singleton in Hf. subst f. discriminate.
    + destruct (H4 Demo.two_pages) as (g & ps & m & Hg & _ & Hr & Hm & Hp & _).
      * left.
      * vm_compute. discriminate.
      * exists m. split; [exact Hm|]. rewrite Hp.
        apply list_elem_of_singleton in Hg. subst g.
        injection Hr as <-. reflexivity.
Defined.

Lemma config_error_is_reported_per_file_witness :
  exists log,
    process_documents 50 100 200 Demo.rejecting Demo.embed_ok Demo.save_ok Demo.clock
      Demo.empty_session [Demo.notes; Demo.blank; Demo.two_pages]
    = (Demo.empty_session, log)
    /\ last log = Some (Shown ErrNoneProcessed)
    /\ Shown (ErrProcessing "a.pdf" "invalid chunk configuration") ∈ log.
Proof.
  destruct (proj2 (config_error_is_reported_per_file 50 100 200 Demo.rejecting
                     Demo.embed_ok Demo.save_ok Demo.clock)
              "invalid chunk configuration" eq_refl Demo.empty_session
              [Demo.notes; Demo.blank; Demo.two_pages])
    as (log & H1 & H2 & H3).
  exists log. split; [exact H1|]. split; [exact H2|].
  apply (H3 Demo.two_pages); [right; right; left|reflexivity|reflexivity].
Defined.

(** C5 as stated fails.  With chunk size and overlap both 200, which
    violates [overlap < chunk_size], [get_text_chunks] raises nothing and
    returns a chunk when the splitter accepts the pair.  With overlap 200
    above chunk size 100 and a splitter that rejects the pair,
    [process_documents] still handles the first two files, meets the error
    at the third, reports it and ends normally; a batch without text never
    meets the error. *)
Lemma config_error_does_not_fail_fast :
  ~ (0 <= 200 < 200)
  /\ get_text_chunks 200 200 Demo.whole_text Demo.page_one = inr [Demo.page_one]
  /\ ~ (0 <= 200 < 100)
  /\ process_documents 50 100 200 Demo.rejecting Demo.embed_ok Demo.save_ok Demo.clock
       Demo.empty_session [Demo.notes; Demo.blank; Demo.two_pages]
     = (Demo.empty_session,
        [Shown (ErrInvalid "notes.txt" NotPdf); Shown (ErrNoText "scan.pdf");
         Shown (ErrProcessing "a.pdf" "invalid chunk configuration");
         Shown ErrNoneProcessed])
  /\ process_documents 50 100 200 Demo.rejecting Demo.embed_ok Demo.save_ok Demo.clock
       Demo.empty_session [Demo.blank]
     = (Demo.empty_session, [Shown (ErrNoText "scan.pdf"); Shown ErrNoneProcessed]).
Proof.
  split; [lia|]. split; [vm_compute; reflexivity|]. split; [lia|].
  split; vm_compute; reflexivity.
Qed.

(** C9 as stated fails.  A call that accepts a document but whose
    embedding fails leaves the earlier store, with the earlier chunk, in
    the session; and a call that accepts a document named like an earlier
    one replaces the earlier entry of the registry. *)
Lemma rebuild_can_keep_old_index_and_overwrites_entry :
  chunks_of 50 10000 1000 Demo.whole_text Demo.two_pages <> []
  /\ vector_store (process_documents 50 10000 1000 Demo.whole_text Demo.embed_down
                     Demo.save_ok Demo.clock Demo.old_session [Demo.two_pages]).1
     = Some {| docstore := ["An earlier chunk about wind turbines."]; index := tt |}
  /\ processed_documents Demo.old_session !! "a.pdf"
     = Some {| pages := 7; chunks := 3; size_mb := 9000;
               processed_time := "2024-04-01 09:00:00" |}
  /\ processed_documents
       (process_documents 50 10000 1000 Demo.whole_text Demo.embed_ok
          Demo.save_ok Demo.clock Demo.old_session [Demo.two_pages]).1 !! "a.pdf"
     = Some {| pages := 2; chunks := 1; size_mb := 2048;
               processed_time := "2024-05-01 10:00:00" |}.
Proof.
  split; [vm_compute; discriminate|].
  repeat split; vm_compute; reflexivity.
Qed.

(** ** The citation of a chunk *)

Lemma digit_chars (d : ascii) :
  is_digit d = true ->
  Py.isspace d = false /\ d <> " "%char /\ d <> "o"%char /\ d <> "-"%char.
Proof.
  destruct d as [[] [] [] [] [] [] [] []]; vm_compute; intros H;
    try discriminate H; repeat split; congruence.
Qed.

Lemma string_of_uint_digits (d : Decimal.uint) :
  all_digits (NilEmpty.string_of_uint d) = true.
Proof. induction d; simpl; [reflexivity|exact IHd..]. Qed.

Lemma str_of_nat_digits (n : nat) :
  all_digits (Py.str_of_nat n) = true /\ Py.str_of_nat n <> EmptyString.
Proof.
  unfold Py.str_of_nat, NilZero.string_of_uint.
  destruct (Nat.to_uint n) eqn:E; simpl;
    (split; [try reflexivity; apply string_of_uint_digits|discriminate]).
Qed.

Lemma rstrip_digits (s : string) : all_digits s = true -> Py.rstrip s = s.
Proof.
  induction s as [|d s IH]; [reflexivity|].
  cbn [all_digits]. intros H. apply andb_true_iff in H as [Hd Hs].
  cbn [Py.rstrip]. rewrite (IH Hs).
  destruct s; [|reflexivity].
  destruct (digit_chars d Hd) as [-> _]. reflexivity.
Qed.

Lemma strip_digits (s : string) : all_digits s = true -> Py.strip s = s.
Proof.
  intros H. unfold Py.strip.
  assert (Hl : Py.lstrip s = s).
  { destruct s as [|d s]; [reflexivity|].
    cbn [all_digits] in H. apply andb_true_iff in H as [Hd _].
    cbn [Py.lstrip]. destruct (digit_chars d Hd) as [-> _]. reflexivity. }
  rewrite Hl. apply rstrip_digits, H.
Qed.

Lemma prefix_mismatch (c d : ascii) (s t : string) :
  c <> d -> String.prefix (String c s) (String d t) = false.
Proof. intros H. cbn [String.prefix]. destruct (ascii_dec c d); [contradiction|reflexivity]. Qed.

Lemma split_go_cons (sep : string) (c : ascii) (s : string) :
  String.prefix sep (String c s) = false ->
  Py.split_go sep 0 (String c s)
  = match Py.split_go sep 0 s with
    | piece :: rest => String c piece :: rest
    | [] => [String c EmptyString]
    end.
Proof. intros H. cbn [Py.split_go]. rewrite H. reflexivity. Qed.

Lemma prefix_empty (s : string) : String.prefix EmptyString s = true.
Proof. destruct s; reflexivity. Qed.

Lemma prefix_append (s t : string) : String.prefix s (s +:+ t) = true.
Proof.
  induction s as [|c s IH]; [apply prefix_empty|].
  rewrite append_cons. cbn [String.prefix].
  destruct (ascii_dec c c); [exact IH|contradiction].
Qed.

Lemma split_go_skip (sep s t : string) :
  Py.split_go sep (String.length s) (s +:+ t) = Py.split_go sep 0 t.
Proof. induction s as [|c s IH]; [reflexivity|exact IH]. Qed.

(** A string that starts with the separator: an empty first piece. *)
Lemma split_go_sep (sep t : string) :
  sep <> EmptyString ->
  Py.split_go sep 0 (sep +:+ t) = EmptyString :: Py.split_go sep 0 t.
Proof.
  destruct sep as [|c sep]; [congruence|]. intros _.
  pose proof (prefix_append (String c sep) t) as Hp.
  rewrite append_cons in *. cbn [Py.split_go]. rewrite Hp.
  cbn [String.length Nat.pred]. rewrite split_go_skip. reflexivity.
Qed.

(** Digits, then the separator [" of "]: the first piece is the digits. *)
Lemma split_digits_of (digits rest : string) :
  all_digits digits = true ->
  Py.split_go " of " 0 (digits +:+ " of " +:+ rest)
  = digits :: Py.split_go " of " 0 rest.
Proof.
  induction digits as [|d digits IH]; intros H;
    [apply (split_go_sep " of " rest); discriminate|].
  cbn [all_digits] in H. apply andb_true_iff in H as [Hd Hs].
  destruct (digit_chars d Hd) as (_ & Hsp & _ & _).
  rewrite append_cons, split_go_cons, (IH Hs); [reflexivity|].
  apply prefix_mismatch. congruence.
Qed.

Lemma contains_digits (c : ascii) (sep digits : string) :
  is_digit c = false ->
  all_digits digits = true ->
  Py.contains (String c sep) digits = false.
Proof.
  intros Hc. induction digits as [|d digits IH]; intros H; [reflexivity|].
  cbn [all_digits] in H. apply andb_true_iff in H as [Hd Hs].
  cbn [Py.contains]. rewrite (IH Hs), prefix_mismatch; [reflexivity|].
  intros ->. congruence.
Qed.

(** The line that [get_pdf_text] writes before the text of a page parses
    to the number of that page. *)
Lemma parse_marker_line_marker (page_num : nat) (doc_name : string) :
  exists filename,
    parse_marker_line (marker_line page_num doc_name)
    = Some {| document := filename; page := Py.str_of_nat (page_num + 1) |}.
Proof.
  destruct (str_of_nat_digits (page_num + 1)) as [Hdigits Hne].
  unfold parse_marker_line, marker_line.
  set (N := Py.str_of_nat (page_num + 1)) in *.
  set (tail := doc_name +:+ " ---").
  assert (H1 : Py.contains "--- Page" ("--- Page " +:+ N +:+ " of " +:+ tail) = true)
    by (apply contains_prefix; reflexivity).
  assert (H2 : Py.contains "of" ("--- Page " +:+ N +:+ " of " +:+ tail) = true).
  { do 2 apply contains_append_r. apply contains_cons, contains_prefix. reflexivity. }
  rewrite H1, H2. cbn [andb].
  assert (H3 : Py.split " of " ("--- Page " +:+ N +:+ " of " +:+ tail)
               = ("--- Page " +:+ N) :: Py.split_go " of " 0 tail).
  { unfold Py.split. destruct N as [|d N'] eqn:EN; [congruence|].
    cbn [all_digits] in Hdigits.
    destruct (proj1 (andb_true_iff _ _) Hdigits) as [Hd _].
    destruct (digit_chars d Hd) as (_ & _ & Ho & _).
    pose (Y := N' +:+ " of " +:+ tail).
    change (String d N' +:+ " of " +:+ tail) with (String d Y).
    rewrite !append_cons, append_empty_l.
    rewrite !split_go_cons by reflexivity.
    rewrite split_go_cons.
    - change (String d Y) with (String d N' +:+ " of " +:+ tail).
      rewrite split_digits_of by exact Hdigits.
      reflexivity.
    - cbn [String.prefix]. destruct (ascii_dec " " " "); [|reflexivity].
      destruct (ascii_dec "o" d); [congruence|reflexivity]. }
  rewrite H3.
  destruct (Py.split_go " of " 0 tail) as [|p1 rest] eqn:E;
    [exfalso; exact (split_go_not_nil _ _ _ E)|].
  assert (H4 : Py.split "--- Page " ("--- Page " +:+ N) = [EmptyString; N]).
  { unfold Py.split.
    rewrite (split_go_sep "--- Page " N) by discriminate.
    f_equal. apply (split_absent "--- Page " N).
    apply contains_digits; [reflexivity|exact Hdigits]. }
  rewrite H4, (strip_digits N Hdigits). eexists. reflexivity.
Qed.

(** C2, as the code has it: the citation of a chunk carries the page of
    the first marker line in the chunk.  Whatever lines without a marker
    come first (the rest of the page the chunk started in, or nothing when
    the chunk starts at a marker), the page cited is the one the first
    marker announces. *)
Theorem citation_is_the_first_marker
    (content : string) (before after : list string)
    (page_num : nat) (doc_name : string) :
  Py.split Py.newline content = before ++ marker_line page_num doc_name :: after ->
  Forall (fun line => unmarked line = true) before ->
  exists c, extract_source_info content = Some c
            /\ page c = Py.str_of_nat (page_num + 1).
Proof.
  intros Hlines Hbefore. unfold extract_source_info.
  rewrite Hlines, first_marker_app, first_marker_none.
  - destruct (parse_marker_line_marker page_num doc_name) as [filename Hp].
    cbn [first_marker]. rewrite Hp. eexists. split; reflexivity.
  - eapply Forall_impl; [exact Hbefore|]. intros l Hl. apply parse_unmarked, Hl.
Qed.

(** C2 as stated fails: the chunk [Demo.straddling] of the text of a
    two-page document starts inside page 1 and ends inside page 2, passes
    the length filter, and is cited with page 2. *)
Lemma straddling_chunk_cites_the_next_page :
  let spans := page_spans "a.pdf" 0 [PageText Demo.page_one; PageText Demo.page_two] in
  Demo.text_of Demo.two_pages = concat_spans spans
  /\ Demo.straddling = String.substring 74 181 (Demo.text_of Demo.two_pages)
  /\ String.length (Demo.text_of Demo.two_pages) = 255%nat
  /\ page_of_offset spans 74 = Some 1%nat
  /\ page_of_offset spans 254 = Some 2%nat
  /\ (100 < String.length (Py.strip Demo.straddling))%nat
  /\ extract_source_info Demo.straddling = Some {| document := "a.pdf"; page := "2" |}
  /\ page <$> extract_source_info Demo.straddling <> Some (Py.str_of_nat 1).
Proof.
  repeat split; try (vm_compute; reflexivity); vm_compute; [lia|discriminate].
Qed.

Lemma citation_is_the_first_marker_witness :
  exists c, extract_source_info Demo.straddling = Some c /\ page c = "2".
Proof.
  apply (citation_is_the_first_marker Demo.straddling
           ["The inverter turns the direct current into alternating current, which the household grid can use at once.";
            EmptyString]
           ["Batteries store the surplus for the evening hours."] 1 "a.pdf").
  - vm_compute. reflexivity.
  - vm_compute. repeat constructor.
Defined.

(** ** Further lemmas on the string primitives *)

Lemma length_append (s t : string) :
  String.length (s +:+ t) = (String.length s + String.length t)%nat.
Proof. induction s as [|c s IH]; [reflexivity|]. rewrite append_cons. simpl. rewrite IH. reflexivity. Qed.

(** A prefix no longer than [x] of [x +:+ y] is a prefix of [x]. *)
Lemma prefix_app_long (p x y : string) :
  String.prefix p (x +:+ y) = true ->
  (String.length p <= String.length x)%nat ->
  String.prefix p x = true.
Proof.
  revert x. induction p as [|a p IH]; intros x H Hlen; [apply prefix_empty|].
  destruct x as [|b x]; [simpl in Hlen; lia|].
  rewrite append_cons in H. cbn [String.prefix] in *.
  destruct (ascii_dec a b); [|discriminate].
  apply IH; [exact H|simpl in Hlen; lia].
Qed.

(** The first occurrence of the separator: when [sep0] is the separator
    without its last character and [a +:+ sep0] holds no occurrence, the
    first piece of [a +:+ sep +:+ t] is [a]. *)
Lemma split_first (sep0 : string) (l : ascii) (a t : string) :
  let sep := sep0 +:+ String l EmptyString in
  Py.contains sep (a +:+ sep0) = false ->
  Py.split_go sep 0 (a +:+ sep +:+ t) = a :: Py.split_go sep 0 t.
Proof.
  intros sep. induction a as [|c a IH]; intros H.
  - rewrite append_empty_l. apply split_go_sep. subst sep. destruct sep0; discriminate.
  - rewrite append_cons in H. cbn [Py.contains] in H.
    apply orb_false_iff in H as [Hp Hc].
    rewrite append_cons, split_go_cons, (IH Hc); [reflexivity|].
    destruct (String.prefix sep (String c (a +:+ sep +:+ t))) eqn:E; [|reflexivity].
    rewrite <- Hp. symmetry.
    apply (prefix_app_long sep (String c (a +:+ sep0)) (String l t)).
    + rewrite <- E. f_equal. rewrite append_cons. f_equal.
      subst sep. rewrite !append_assoc. reflexivity.
    + subst sep. simpl. rewrite !length_append. simpl. lia.
Qed.

(** With an occurrence of the separator, [split] gives two pieces or more. *)
Lemma split_contains_two (sep s : string) :
  sep <> EmptyString ->
  Py.contains sep s = true ->
  exists p q r, Py.split sep s = p :: q :: r.
Proof.
  intros Hsep. unfold Py.split. induction s as [|c s IH]; intros H.
  - destruct sep; [congruence|discriminate].
  - cbn [Py.contains] in H. cbn [Py.split_go].
    destruct (String.prefix sep (String c s)) eqn:E.
    + destruct (Py.split_go sep (Nat.pred (String.length sep)) s) as [|q r] eqn:Eq;
        [exfalso; exact (split_go_not_nil _ _ _ Eq)|eauto].
    + destruct (IH H) as (p & q & r & ->). eauto.
Qed.

Lemma replace_go_skip (old new s t : string) :
  Py.replace_go old new (String.length s) (s +:+ t) = Py.replace_go old new 0 t.
Proof. induction s as [|c s IH]; [reflexivity|exact IH]. Qed.

(** [replace] up to the first occurrence, in the manner of [split_first]. *)
Lemma replace_first (old0 : string) (l : ascii) (new a t : string) :
  let old := old0 +:+ String l EmptyString in
  Py.contains old (a +:+ old0) = false ->
  Py.replace_go old new 0 (a +:+ old +:+ t) = a +:+ new +:+ Py.replace_go old new 0 t.
Proof.
  intros old. induction a as [|c a IH]; intros H.
  - rewrite !append_empty_l.
    assert (Hne : exists c old', old = String c old')
      by (subst old; destruct old0; simpl; eauto).
    destruct Hne as (c & old' & Hold).
    pose proof (prefix_append old t) as Hp. rewrite Hold in *.
    rewrite append_cons in *. cbn [Py.replace_go]. rewrite Hp.
    cbn [String.length Nat.pred]. rewrite replace_go_skip. reflexivity.
  - rewrite append_cons in H. cbn [Py.contains] in H.
    apply orb_false_iff in H as [Hp Hc].
    rewrite !append_cons. cbn [Py.replace_go].
    destruct (String.prefix old (String c (a +:+ old +:+ t))) eqn:E.
    + assert (String.prefix old (String c (a +:+ old0)) = true); [|congruence].
      apply (prefix_app_long old (String c (a +:+ old0)) (String l t)).
      * rewrite <- E. f_equal. rewrite append_cons. f_equal.
        subst old. rewrite !append_assoc. reflexivity.
      * subst old. simpl. rewrite !length_append. simpl. lia.
    + rewrite (IH Hc). reflexivity.
Qed.

Lemma replace_absent (old new s : string) :
  Py.contains old s = false -> Py.replace old new s = s.
Proof.
  unfold Py.replace. induction s as [|c s IH]; intros H; [reflexivity|].
  cbn [Py.contains] in H. apply orb_false_iff in H as [Hp Hc].
  cbn [Py.replace_go]. rewrite Hp, (IH Hc). reflexivity.
Qed.

(** An occurrence of [" ---"] cannot straddle the end of a name that is
    followed by [" ---"]. *)
Lemma dashes_no_straddle (s : string) :
  Py.contains " ---" s = false -> Py.contains " ---" (s +:+ " --") = false.
Proof.
  induction s as [|c s IH]; intros H; [reflexivity|].
  cbn [Py.contains] in H. apply orb_false_iff in H as [Hp Hc].
  rewrite append_cons. cbn [Py.contains]. rewrite (IH Hc), orb_false_r.
  destruct s as [|c2 [|c3 [|c4 s]]].
  - rewrite append_empty_l. cbn [String.prefix].
    repeat (destruct (ascii_dec _ _); try reflexivity; try discriminate).
  - rewrite append_cons, append_empty_l. cbn [String.prefix].
    repeat (destruct (ascii_dec _ _); try reflexivity; try discriminate).
  - rewrite !append_cons, append_empty_l. cbn [String.prefix].
    repeat (destruct (ascii_dec _ _); try reflexivity; try discriminate).
  - destruct (String.prefix " ---" (String c (String c2 (String c3 (String c4 s)) +:+ " --")))
      eqn:E; [|reflexivity].
    rewrite <- Hp. symmetry.
    apply (prefix_app_long " ---" (String c (String c2 (String c3 (String c4 s)))) " --").
    + exact E.
    + simpl. lia.
Qed.

(** ** The citation of a marker line, with the document *)

Lemma split_marker_line (page_num : nat) (doc_name : string) :
  Py.split " of " (marker_line page_num doc_name)
  = ("--- Page " +:+ Py.str_of_nat (page_num + 1))
    :: Py.split_go " of " 0 (doc_name +:+ " ---").
Proof.
  destruct (str_of_nat_digits (page_num + 1)) as [Hdigits Hne].
  unfold marker_line, Py.split.
  set (N := Py.str_of_nat (page_num + 1)) in *.
  set (tail := doc_name +:+ " ---").
  destruct N as [|d N'] eqn:EN; [congruence|].
  cbn [all_digits] in Hdigits.
  destruct (proj1 (andb_true_iff _ _) Hdigits) as [Hd _].
  destruct (digit_chars d Hd) as (_ & _ & Ho & _).
  pose (Y := N' +:+ " of " +:+ tail).
  change (String d N' +:+ " of " +:+ tail) with (String d Y).
  rewrite !append_cons, append_empty_l.
  rewrite !split_go_cons by reflexivity.
  rewrite split_go_cons.
  - change (String d Y) with (String d N' +:+ " of " +:+ tail).
    rewrite split_digits_of by exact Hdigits.
    reflexivity.
  - cbn [String.prefix]. destruct (ascii_dec " " " "); [|reflexivity].
    destruct (ascii_dec "o" d); [congruence|reflexivity].
Qed.

Lemma split_marker_page (digits : string) :
  all_digits digits = true ->
  Py.split "--- Page " ("--- Page " +:+ digits) = [EmptyString; digits].
Proof.
  intros H. unfold Py.split.
  rewrite (split_go_sep "--- Page " digits) by discriminate.
  f_equal. apply (split_absent "--- Page " digits).
  apply contains_digits; [reflexivity|exact H].
Qed.

(** What a marker line parses to: the page it was written with, and as
    document the first piece of the name up to [" of "], without [" ---"]. *)
Lemma parse_marker_line_pieces (page_num : nat) (doc_name : string) :
  parse_marker_line (marker_line page_num doc_name)
  = match Py.split_go " of " 0 (doc_name +:+ " ---") with
    | p1 :: _ =>
        Some {| document := Py.strip (Py.replace " ---" EmptyString p1);
                page := Py.str_of_nat (page_num + 1) |}
    | [] => None
    end.
Proof.
  destruct (str_of_nat_digits (page_num + 1)) as [Hdigits _].
  unfold parse_marker_line. rewrite split_marker_line.
  assert (H1 : Py.contains "--- Page" (marker_line page_num doc_name) = true)
    by (apply contains_prefix; reflexivity).
  assert (H2 : Py.contains "of" (marker_line page_num doc_name) = true).
  { unfold marker_line. do 2 apply contains_append_r.
    apply contains_cons, contains_prefix. reflexivity. }
  rewrite H1, H2. cbn [andb].
  destruct (Py.split_go " of " 0 (doc_name +:+ " ---")) as [|p1 rest]; [reflexivity|].
  rewrite (split_marker_page _ Hdigits), (strip_digits _ Hdigits). reflexivity.
Qed.

Lemma first_marker_found (before after : list string) (line : string) (c : Citation) :
  Forall (fun l => unmarked l = true) before ->
  parse_marker_line line = Some c ->
  first_marker (before ++ line :: after) = Some c.
Proof.
  intros Hbefore Hline. rewrite first_marker_app, first_marker_none.
  - cbn [first_marker]. rewrite Hline. reflexivity.
  - eapply Forall_impl; [exact Hbefore|]. intros l Hl. apply parse_unmarked, Hl.
Qed.

(** X5: the marker that [get_pdf_text] writes and [extract_source_info]
    are inverse to each other for an ordinary file name.  When the name,
    followed by [" ---"], holds no [" of "], the name holds no [" ---"]
    and has no blank at either end, the citation of a chunk whose first
    marker line was written for page [page_num + 1] of that file is that
    file and that page. *)
Theorem citation_round_trip
    (content : string) (before after : list string)
    (page_num : nat) (doc_name : string) :
  Py.split Py.newline content = before ++ marker_line page_num doc_name :: after ->
  Forall (fun line => unmarked line = true) before ->
  Py.contains " of " (doc_name +:+ " ---") = false ->
  Py.contains " ---" doc_name = false ->
  Py.strip doc_name = doc_name ->
  extract_source_info content
  = Some {| document := doc_name; page := Py.str_of_nat (page_num + 1) |}.
Proof.
  intros Hlines Hbefore Hof Hdash Hstrip. unfold extract_source_info.
  rewrite Hlines. apply first_marker_found; [exact Hbefore|].
  rewrite parse_marker_line_pieces.
  change (Py.split_go " of " 0 (doc_name +:+ " ---"))
    with (Py.split " of " (doc_name +:+ " ---")).
  rewrite (split_absent _ _ Hof).
  assert (Hrep : Py.replace " ---" EmptyString (doc_name +:+ " ---") = doc_name).
  { pose proof (replace_first " --" "-" EmptyString doc_name EmptyString
                  (dashes_no_straddle _ Hdash)) as Hr.
    cbv zeta in Hr. unfold Py.replace.
    etransitivity; [exact Hr|].
    cbn [Py.replace_go]. rewrite append_empty_l. apply append_nil_r. }
  rewrite Hrep, Hstrip. reflexivity.
Qed.

(** X6: a file name that holds [" of "] is cited under the part before
    its first [" of "] only.  For a name [a +:+ " of " +:+ b] whose part
    [a] is ordinary, the citation names the document [a]; the page is
    still right. *)
Theorem citation_cuts_name_at_of
    (content : string) (before after : list string)
    (page_num : nat) (a b : string) :
  Py.split Py.newline content
  = before ++ marker_line page_num (a +:+ " of " +:+ b) :: after ->
  Forall (fun line => unmarked line = true) before ->
  Py.contains " of " (a +:+ " of") = false ->
  Py.contains " ---" a = false ->
  Py.strip a = a ->
  extract_source_info content
  = Some {| document := a; page := Py.str_of_nat (page_num + 1) |}.
Proof.
  intros Hlines Hbefore Hof Hdash Hstrip. unfold extract_source_info.
  rewrite Hlines. apply first_marker_found; [exact Hbefore|].
  rewrite parse_marker_line_pieces.
  assert (Hs : Py.split_go " of " 0 ((a +:+ " of " +:+ b) +:+ " ---")
               = a :: Py.split_go " of " 0 (b +:+ " ---")).
  { rewrite append_assoc. exact (split_first " of" " " a (b +:+ " ---") Hof). }
  rewrite Hs, (replace_absent _ _ _ Hdash), Hstrip. reflexivity.
Qed.

Lemma citation_round_trip_witness :
  extract_source_info Demo.straddling = Some {| document := "a.pdf"; page := "2" |}.
Proof.
  apply (citation_round_trip Demo.straddling
           ["The inverter turns the direct current into alternating current, which the household grid can use at once.";
            EmptyString]
           ["Batteries store the surplus for the evening hours."] 1 "a.pdf").
  - vm_compute. reflexivity.
  - vm_compute. repeat constructor.
  - reflexivity.
  - reflexivity.
  - reflexivity.
Defined.

Lemma citation_cuts_name_at_of_witness :
  extract_source_info
    (page_marker 0 Scenario.tale +:+ "It was the best of times, it was the worst of times.")
  = Some {| document := "Tale"; page := "1" |}.
Proof.
  apply (citation_cuts_name_at_of _ [EmptyString; EmptyString]
           ["It was the best of times, it was the worst of times."]
           0 "Tale" "Two Cities.pdf").
  - vm_compute. reflexivity.
  - vm_compute. repeat constructor.
  - reflexivity.
  - reflexivity.
  - reflexivity.
Defined.

(** ** More on validation and extraction *)



Lemma read_pages_raised_indep (doc_name : string) (ps : list PageResult) :
  forall page_num text,
    (read_pages doc_name page_num ps text).2
    = (read_pages doc_name page_num ps EmptyString).2.
Proof.
  induction ps as [|[page_text|e] ps IH]; intros page_num text; simpl;
    [reflexivity| |reflexivity].
  rewrite IH. symmetry. apply IH.
Qed.

Lemma read_doc_from (d : UploadedFile) (text : string) :
  read_doc d text = (text +:+ (read_doc d EmptyString).1, (read_doc d EmptyString).2).
Proof.
  unfold read_doc. destruct (reader d) as [e|ps].
  - simpl. rewrite append_nil_r. reflexivity.
  - pose proof (read_pages_spans (name d) ps 0%nat text) as H1.
    pose proof (read_pages_spans (name d) ps 0%nat EmptyString) as H2.
    pose proof (read_pages_raised_indep (name d) ps 0%nat text) as H3.
    destruct (read_pages (name d) 0 ps text) as [t r].
    destruct (read_pages (name d) 0 ps EmptyString) as [t0 r0].
    simpl in *. subst. reflexivity.
Qed.

Lemma get_pdf_text_from_prefix (pdf_docs : list UploadedFile) :
  forall text,
    get_pdf_text_from pdf_docs text
    = (text +:+ (get_pdf_text pdf_docs).1, (get_pdf_text pdf_docs).2).
Proof.
  unfold get_pdf_text.
  induction pdf_docs as [|d rest IH]; intros text; cbn [get_pdf_text_from].
  - rewrite append_nil_r. reflexivity.
  - pose proof (read_doc_from d text) as Hd.
    destruct (read_doc d text) as [t1 l1].
    destruct (read_doc d EmptyString) as [t l].
    cbn [fst snd] in Hd. injection Hd as -> ->.
    rewrite (IH (text +:+ t)), (IH t).
    destruct (get_pdf_text_from rest EmptyString) as [t' l']. cbn [fst snd].
    rewrite append_assoc. reflexivity.
Qed.

(** X2: documents are extracted independently of each other: the text of
    a list of documents is the text of its first part followed by the
    text of its second part, and so are the reported errors. *)
Theorem get_pdf_text_app (docs1 docs2 : list UploadedFile) :
  get_pdf_text (docs1 ++ docs2)
  = ((get_pdf_text docs1).1 +:+ (get_pdf_text docs2).1,
     (get_pdf_text docs1).2 ++ (get_pdf_text docs2).2).
Proof.
  induction docs1 as [|d rest IH]; cbn [app].
  - destruct (get_pdf_text docs2) as [t l]. reflexivity.
  - unfold get_pdf_text in *. cbn [get_pdf_text_from].
    destruct (read_doc d EmptyString) as [t l].
    rewrite (get_pdf_text_from_prefix (rest ++ docs2) t),
            (get_pdf_text_from_prefix rest t).
    unfold get_pdf_text. rewrite IH. cbn [fst snd].
    rewrite append_assoc, app_assoc. reflexivity.
Qed.

(** X3: a document whose container cannot be read adds no text wherever
    it stands in the list; it is reported once, between the errors of the
    documents before and after it, and the other documents are extracted
    as if it were not there. *)
Theorem unreadable_document_is_skipped
    (docs1 docs2 : list UploadedFile) (d : UploadedFile) (e : Exn) :
  reader d = Unreadable e ->
  get_pdf_text (docs1 ++ d :: docs2)
  = ((get_pdf_text (docs1 ++ docs2)).1,
     (get_pdf_text docs1).2 ++ Shown (ErrReading (name d) e) :: (get_pdf_text docs2).2).
Proof.
  intros Hd.
  assert (H1 : get_pdf_text [d] = (EmptyString, [Shown (ErrReading (name d) e)])).
  { unfold get_pdf_text. cbn [get_pdf_text_from]. unfold read_doc. rewrite Hd. reflexivity. }
  change (d :: docs2) with ([d] ++ docs2).
  rewrite !get_pdf_text_app, H1. cbn [fst snd]. rewrite append_empty_l. reflexivity.
Qed.

Lemma unreadable_document_is_skipped_witness :
  get_pdf_text [Demo.one_page; Demo.notes; Demo.blank]
  = ((get_pdf_text [Demo.one_page; Demo.blank]).1,
     [Shown (ErrReading "notes.txt" "EOF marker not found")]).
Proof.
  apply (unreadable_document_is_skipped [Demo.one_page] [Demo.blank] Demo.notes
           "EOF marker not found").
  reflexivity.
Defined.

(** X4: the extracted text of a document is made of one block per page
    with non-blank text before the first page that raises; each block is
    the marker of the page followed by the page's text, the marker
    carries the position of the page in the document counted from 1
    (blank pages are counted), and the blocks come in page order. *)
Theorem page_spans_numbering (doc_name : string) (ps : list PageResult) :
  forall page_num,
    (forall text,
       (read_pages doc_name page_num ps text).1
       = text +:+ concat_spans (page_spans doc_name page_num ps))
    /\ (forall p s,
          (p, s) ∈ page_spans doc_name page_num ps ->
          (page_num < p <= page_num + length ps)%nat
          /\ exists page_text,
               ps !! (p - 1 - page_num)%nat = Some (PageText page_text)
               /\ Py.truthy (Py.strip page_text) = true
               /\ s = page_marker (p - 1) doc_name +:+ page_text)
    /\ StronglySorted lt (fst <$> page_spans doc_name page_num ps).
Proof.
  induction ps as [|[page_text|e] ps IH]; intros page_num.
  - split; [intros; apply read_pages_spans|]. split; [|constructor].
    intros p s H. inversion H.
  - destruct (IH (S page_num)) as (_ & Hin & Hsorted).
    split; [intros; apply read_pages_spans|].
    assert (Hlater : forall p s, (p, s) ∈ page_spans doc_name (S page_num) ps ->
              (page_num < p <= page_num + length (PageText page_text :: ps))%nat
              /\ exists t, (PageText page_text :: ps) !! (p - 1 - page_num)%nat
                           = Some (PageText t)
                           /\ Py.truthy (Py.strip t) = true
                           /\ s = page_marker (p - 1) doc_name +:+ t).
    { intros p s H. destruct (Hin p s H) as (Hp & t & Ht & Hnb & Hs).
      split; [simpl; lia|]. exists t. split; [|split; assumption].
      replace (p - 1 - page_num)%nat with (S (p - 1 - S page_num)) by lia.
      exact Ht. }
    cbn [page_spans]. destruct (Py.truthy (Py.strip page_text)) eqn:Hnb.
    + split.
      * intros p s H. cbn [app] in H. apply elem_of_cons in H as [Heq|H];
          [|apply (Hlater p s H)].
        injection Heq as -> ->. split; [simpl; lia|].
        exists page_text.
        replace (page_num + 1 - 1 - page_num)%nat with 0%nat by lia.
        replace (page_num + 1 - 1)%nat with page_num by lia.
        split; [reflexivity|]. split; [exact Hnb|reflexivity].
      * cbn [app fmap list_fmap fst]. constructor; [exact Hsorted|].
        apply Forall_forall. intros q Hq.
        apply list_elem_of_fmap in Hq as ([p s] & -> & H).
        destruct (Hin p s H) as (Hp & _). simpl. lia.
    + split; [exact Hlater|exact Hsorted].
  - split; [intros; apply read_pages_spans|]. split; [|constructor].
    intros p s H. inversion H.
Qed.

Lemma page_spans_numbering_witness :
  exists page_text,
    [PageText EmptyString; PageText Demo.page_two; PageText Demo.page_one]
      !! (2 - 1 - 0)%nat = Some (PageText page_text)
    /\ Py.truthy (Py.strip page_text) = true
    /\ page_marker 1 "b.pdf" +:+ Demo.page_two = page_marker (2 - 1) "b.pdf" +:+ page_text.
Proof.
  destruct (page_spans_numbering "b.pdf"
              [PageText EmptyString; PageText Demo.page_two; PageText Demo.page_one] 0)
    as (_ & H & _).
  apply (H 2%nat (page_marker 1 "b.pdf" +:+ Demo.page_two)).
  left.
Defined.

(** ** More on chunking and ingestion *)

Lemma length_lstrip_le (s : string) : (String.length (Py.lstrip s) <= String.length s)%nat.
Proof.
  induction s as [|c s IH]; [reflexivity|].
  cbn [Py.lstrip]. destruct (Py.isspace c); simpl in *; lia.
Qed.

Lemma length_rstrip_le (s : string) : (String.length (Py.rstrip s) <= String.length s)%nat.
Proof.
  induction s as [|c s IH]; [reflexivity|].
  cbn [Py.rstrip]. destruct (Py.rstrip s) eqn:E.
  - destruct (Py.isspace c); simpl; lia.
  - simpl in *. lia.
Qed.

Lemma length_strip_le (s : string) : (String.length (Py.strip s) <= String.length s)%nat.
Proof.
  unfold Py.strip. pose proof (length_rstrip_le (Py.lstrip s)).
  pose proof (length_lstrip_le s). lia.
Qed.

Lemma filter_none {A} (P : A -> Prop) `{forall x, Decision (P x)} (l : list A) :
  Forall (fun x => ~ P x) l -> filter P l = [].
Proof.
  induction 1 as [|x l Hx _ IH]; [reflexivity|].
  rewrite filter_cons_False by exact Hx. exact IH.
Qed.

Lemma get_pdf_text_log_shown (pdf_docs : list UploadedFile) :
  forall text, Forall (fun ev => exists n, ev = Shown n) (get_pdf_text_from pdf_docs text).2.
Proof.
  induction pdf_docs as [|d rest IH]; intros text; cbn [get_pdf_text_from]; [constructor|].
  unfold read_doc.
  destruct (match reader d with
            | Unreadable e => (text, Some e)
            | Pages ps => read_pages (name d) 0 ps text
            end) as [text' [e|]];
    specialize (IH text'); destruct (get_pdf_text_from rest text') as [t l];
    cbn [snd] in *; [constructor; eauto|exact IH].
Qed.

Section IngestionMore.

Context {Index : Type}.
Variables MAX_FILE_SIZE_MB CHUNK_SIZE CHUNK_OVERLAP : Z.
Variable RecursiveCharacterTextSplitter : Z -> Z -> Exn + (string -> list string).
Variable embed_documents : list string -> Exn + Index.
Variable save_local : VectorStore Index -> option Exn.
Variable now : nat -> string.

(** X7: [get_text_chunks] returns the chunks of the splitter in their
    order, keeping exactly those with more than 100 characters after
    trimming: a chunk of exactly 100 is dropped, one of 101 is kept. *)
Theorem chunk_kept_iff (text : string) (chunks : list string)
    (split_text : string -> list string) :
  get_text_chunks CHUNK_SIZE CHUNK_OVERLAP RecursiveCharacterTextSplitter text
  = inr chunks ->
  RecursiveCharacterTextSplitter CHUNK_SIZE CHUNK_OVERLAP = inr split_text ->
  sublist chunks (split_text text)
  /\ forall chunk,
       chunk ∈ chunks
       <-> chunk ∈ split_text text /\ (101 <= String.length (Py.strip chunk))%nat.
Proof.
  unfold get_text_chunks. intros H Hs. rewrite Hs in H. injection H as <-.
  split; [apply sublist_filter|].
  intros chunk. rewrite list_elem_of_filter. split; intros [H1 H2]; split; auto; lia.
Qed.

Lemma process_file_log_shown (i : nat) (f : UploadedFile) (b : Batch) :
  Forall (fun ev => exists n, ev = Shown n)
    (process_file MAX_FILE_SIZE_MB CHUNK_SIZE CHUNK_OVERLAP
       RecursiveCharacterTextSplitter now i f b).2.
Proof.
  unfold process_file.
  destruct (validate_pdf_file MAX_FILE_SIZE_MB f); [repeat constructor; eauto|].
  pose proof (get_pdf_text_log_shown [f] EmptyString) as Hlog.
  unfold get_pdf_text. destruct (get_pdf_text_from [f] EmptyString) as [text log].
  cbn [snd] in Hlog.
  assert (Hsnoc : forall n, Forall (fun ev => exists n, ev = Shown n) (log ++ [Shown n]))
    by (intros n; apply Forall_app; split; [exact Hlog|repeat constructor; eauto]).
  destruct (negb (Py.truthy (Py.strip text))); [apply Hsnoc|].
  destruct (get_text_chunks _ _ _ text) as [e|[|c cs]]; [apply Hsnoc..|].
  destruct (reader f); [apply Hsnoc|exact Hlog].
Qed.

Lemma process_files_log_shown (files : list UploadedFile) :
  forall i b,
    Forall (fun ev => exists n, ev = Shown n)
      (process_files MAX_FILE_SIZE_MB CHUNK_SIZE CHUNK_OVERLAP
         RecursiveCharacterTextSplitter now i files b).2.
Proof.
  induction files as [|f files IH]; intros i b; cbn [process_files]; [constructor|].
  pose proof (process_file_log_shown i f b) as Hf.
  destruct (process_file _ _ _ _ _ i f b) as [b' log].
  specialize (IH (S i) b').
  destruct (process_files _ _ _ _ _ (S i) files b') as [b'' log'].
  cbn [snd] in *. apply Forall_app. split; assumption.
Qed.

Lemma process_files_unchanged (files : list UploadedFile) :
  flat_map (chunks_of MAX_FILE_SIZE_MB CHUNK_SIZE CHUNK_OVERLAP
              RecursiveCharacterTextSplitter) files = [] ->
  forall i b,
    (process_files MAX_FILE_SIZE_MB CHUNK_SIZE CHUNK_OVERLAP
       RecursiveCharacterTextSplitter now i files b).1 = b.
Proof.
  induction files as [|f files IH]; intros Hnil i b; cbn [process_files]; [reflexivity|].
  cbn [flat_map] in Hnil. apply app_eq_nil in Hnil as [Hf Hrest].
  pose proof (process_file_batch MAX_FILE_SIZE_MB CHUNK_SIZE CHUNK_OVERLAP
                RecursiveCharacterTextSplitter now i f b) as Hb.
  cbv zeta in Hb.
  destruct (process_file _ _ _ _ _ i f b) as [b' log].
  specialize (IH Hrest (S i) b').
  destruct (process_files _ _ _ _ _ (S i) files b') as [b'' log'].
  cbn [fst] in *. destruct Hb as [[_ ->]|[Hne _]]; [exact IH|congruence].
Qed.

(** A batch that adds no chunk leaves the session as it was, calls no
    backend and ends with the notice that nothing was processed. *)
Lemma process_documents_nothing_added (st : Session Index) (files : list UploadedFile) :
  flat_map (chunks_of MAX_FILE_SIZE_MB CHUNK_SIZE CHUNK_OVERLAP
              RecursiveCharacterTextSplitter) files = [] ->
  exists log,
    process_documents MAX_FILE_SIZE_MB CHUNK_SIZE CHUNK_OVERLAP
      RecursiveCharacterTextSplitter embed_documents save_local now st files
    = (st, log)
    /\ last log = Some (Shown ErrNoneProcessed)
    /\ Forall (fun ev => exists n, ev = Shown n) log.
Proof.
  intros Hnil. unfold process_documents.
  pose proof (process_files_unchanged files Hnil 0%nat (new_batch st)) as Hb.
  pose proof (process_files_log_shown files 0%nat (new_batch st)) as Hlog.
  destruct (process_files _ _ _ _ _ 0 files (new_batch st)) as [b log].
  cbn [fst snd] in *. subst b. cbn [new_batch all_text_chunks registry].
  destruct st as [vs reg]. eexists. split; [reflexivity|].
  split; [apply last_snoc|].
  apply Forall_app. split; [exact Hlog|repeat constructor; eauto].
Qed.

(** X11: when no file of the batch adds a chunk (every file is rejected,
    has no text, or has only short chunks), [process_documents] leaves
    index and registry as they were, calls no backend, and its last
    notice is the one that no document was processed. *)
Theorem batch_without_chunks_changes_nothing
    (st : Session Index) (files : list UploadedFile) :
  flat_map (chunks_of MAX_FILE_SIZE_MB CHUNK_SIZE CHUNK_OVERLAP
              RecursiveCharacterTextSplitter) files = [] ->
  exists log,
    process_documents MAX_FILE_SIZE_MB CHUNK_SIZE CHUNK_OVERLAP
      RecursiveCharacterTextSplitter embed_documents save_local now st files
    = (st, log)
    /\ last log = Some (Shown ErrNoneProcessed)
    /\ Forall (fun ev => exists n, ev = Shown n) log.
Proof. apply process_documents_nothing_added. Qed.

(** X8: with a splitter whose chunks are, after trimming, no longer than
    the trimmed text they come from, a document whose extracted text
    (markers included) has at most 100 characters after trimming is never
    indexed: a batch of such documents changes nothing. *)
Theorem short_documents_are_never_indexed
    (st : Session Index) (files : list UploadedFile) :
  (forall split_text text chunk,
     RecursiveCharacterTextSplitter CHUNK_SIZE CHUNK_OVERLAP = inr split_text ->
     chunk ∈ split_text text ->
     (String.length (Py.strip chunk) <= String.length (Py.strip text))%nat) ->
  (forall f, f ∈ files ->
     (String.length (Py.strip (get_pdf_text [f]).1) <= 100)%nat) ->
  (forall f, f ∈ files ->
     chunks_of MAX_FILE_SIZE_MB CHUNK_SIZE CHUNK_OVERLAP
       RecursiveCharacterTextSplitter f = [])
  /\ exists log,
       process_documents MAX_FILE_SIZE_MB CHUNK_SIZE CHUNK_OVERLAP
         RecursiveCharacterTextSplitter embed_documents save_local now st files
       = (st, log)
       /\ last log = Some (Shown ErrNoneProcessed).
Proof.
  intros Hsplit Hshort.
  assert (Hnone : forall f, f ∈ files ->
            chunks_of MAX_FILE_SIZE_MB CHUNK_SIZE CHUNK_OVERLAP
              RecursiveCharacterTextSplitter f = []).
  { intros f Hf. unfold chunks_of.
    destruct (validate_pdf_file MAX_FILE_SIZE_MB f); [reflexivity|].
    cbv zeta. destruct (negb _); [reflexivity|].
    unfold get_text_chunks.
    destruct (RecursiveCharacterTextSplitter CHUNK_SIZE CHUNK_OVERLAP)
      as [e|split_text] eqn:Hs; [reflexivity|].
    apply filter_none, Forall_forall. intros c Hc.
    specialize (Hsplit split_text _ c eq_refl Hc). specialize (Hshort f Hf). lia. }
  split; [exact Hnone|].
  destruct (process_documents_nothing_added st files) as (log & H1 & H2 & _).
  - clear Hshort. induction files as [|f files IH]; [reflexivity|].
    cbn [flat_map]. rewrite (Hnone f) by left. apply IH.
    intros g Hg. apply Hnone. right. exact Hg.
  - eauto.
Qed.

End IngestionMore.

Section IngestionIndex.

Context {Index : Type}.
Variables MAX_FILE_SIZE_MB CHUNK_SIZE CHUNK_OVERLAP : Z.
Variable RecursiveCharacterTextSplitter : Z -> Z -> Exn + (string -> list string).
Variable embed_documents : list string -> Exn + Index.
Variable save_local : VectorStore Index -> option Exn.
Variable now : nat -> string.

(** X9: when the embedding succeeds but saving the new store to disk
    raises, the new store is dropped: [process_documents] leaves the index
    reference of the session as it was and every question is answered as
    before. *)
Theorem failed_save_keeps_index
    (st : Session Index) (files : list UploadedFile) (ix : Index) (e : Exn) :
  let added := flat_map (chunks_of MAX_FILE_SIZE_MB CHUNK_SIZE CHUNK_OVERLAP
                           RecursiveCharacterTextSplitter) files in
  embed_documents added = inr ix ->
  save_local {| docstore := added; index := ix |} = Some e ->
  let st' := (process_documents MAX_FILE_SIZE_MB CHUNK_SIZE CHUNK_OVERLAP
                RecursiveCharacterTextSplitter embed_documents save_local now
                st files).1 in
  vector_store st' = vector_store st
  /\ forall similarity_search chain question,
       process_question similarity_search chain st' question
       = process_question similarity_search chain st question.
Proof.
  intros added Hembed Hsave st'.
  assert (Hvs : vector_store st' = vector_store st).
  { destruct (process_documents_session MAX_FILE_SIZE_MB CHUNK_SIZE CHUNK_OVERLAP
                RecursiveCharacterTextSplitter embed_documents save_local now st files)
      as [_ Hvs].
    fold st' added in Hvs. rewrite Hvs.
    unfold get_vector_store, from_texts. rewrite Hembed, Hsave.
    destruct added; reflexivity. }
  split; [exact Hvs|].
  intros similarity_search chain question.
  unfold process_question. rewrite Hvs. reflexivity.
Qed.

(** X10: the registry and the index can part ways.  When the build of the
    vector store fails, the index reference stays as it was, but each file
    that added chunks has all the same been entered in the registry by
    the loop. *)
Theorem failed_build_still_registers
    (st : Session Index) (files : list UploadedFile) (log : list Event)
    (f : UploadedFile) :
  get_vector_store embed_documents save_local
    (flat_map (chunks_of MAX_FILE_SIZE_MB CHUNK_SIZE CHUNK_OVERLAP
                 RecursiveCharacterTextSplitter) files) = (None, log) ->
  f ∈ files ->
  chunks_of MAX_FILE_SIZE_MB CHUNK_SIZE CHUNK_OVERLAP
    RecursiveCharacterTextSplitter f <> [] ->
  let st' := (process_documents MAX_FILE_SIZE_MB CHUNK_SIZE CHUNK_OVERLAP
                RecursiveCharacterTextSplitter embed_documents save_local now
                st files).1 in
  vector_store st' = vector_store st
  /\ is_Some (processed_documents st' !! name f).
Proof.
  intros Hbuild Hf Hc st'.
  destruct (process_documents_session MAX_FILE_SIZE_MB CHUNK_SIZE CHUNK_OVERLAP
              RecursiveCharacterTextSplitter embed_documents save_local now st files)
    as [Hreg Hvs].
  fold st' in Hreg, Hvs. split.
  - rewrite Hvs, Hbuild. destruct (flat_map _ files); reflexivity.
  - rewrite Hreg.
    destruct (process_files_registry_written MAX_FILE_SIZE_MB CHUNK_SIZE CHUNK_OVERLAP
                RecursiveCharacterTextSplitter now files 0%nat (new_batch st) f Hf Hc)
      as (g & ps & m & _ & _ & _ & Hm & _).
    rewrite Hm. eauto.
Qed.

(** X12: [process_documents] never removes an entry of the registry, and
    every name it adds is the name of a file of the batch that added
    chunks. *)
Theorem registry_only_grows
    (st : Session Index) (files : list UploadedFile) (n : string) :
  let st' := (process_documents MAX_FILE_SIZE_MB CHUNK_SIZE CHUNK_OVERLAP
                RecursiveCharacterTextSplitter embed_documents save_local now
                st files).1 in
  (is_Some (processed_documents st !! n) -> is_Some (processed_documents st' !! n))
  /\ (is_Some (processed_documents st' !! n) ->
      is_Some (processed_documents st !! n)
      \/ exists f, f ∈ files /\ name f = n
                   /\ chunks_of MAX_FILE_SIZE_MB CHUNK_SIZE CHUNK_OVERLAP
                        RecursiveCharacterTextSplitter f <> []).
Proof.
  intros st'.
  destruct (process_documents_session MAX_FILE_SIZE_MB CHUNK_SIZE CHUNK_OVERLAP
              RecursiveCharacterTextSplitter embed_documents save_local now st files)
    as [Hreg _].
  fold st' in Hreg. rewrite Hreg.
  destruct (process_files_registry MAX_FILE_SIZE_MB CHUNK_SIZE CHUNK_OVERLAP
              RecursiveCharacterTextSplitter now n files 0%nat (new_batch st))
    as [Hsame|(f & ps & m & Hf & Hname & _ & Hc & Hm & _)].
  - rewrite Hsame. cbn [new_batch registry]. split; auto.
  - rewrite Hm. split; [eauto|]. intros _. right. eauto.
Qed.

Lemma process_files_count (files : list UploadedFile) :
  forall i b,
    processed_count (process_files MAX_FILE_SIZE_MB CHUNK_SIZE CHUNK_OVERLAP
                       RecursiveCharacterTextSplitter now i files b).1
    = (processed_count b
       + length (filter (fun f => chunks_of MAX_FILE_SIZE_MB CHUNK_SIZE CHUNK_OVERLAP
                                    RecursiveCharacterTextSplitter f <> []) files))%nat.
Proof.
  induction files as [|f files IH]; intros i b; cbn [process_files].
  - simpl. lia.
  - pose proof (process_file_batch MAX_FILE_SIZE_MB CHUNK_SIZE CHUNK_OVERLAP
                  RecursiveCharacterTextSplitter now i f b) as Hb.
    cbv zeta in Hb.
    destruct (process_file _ _ _ _ _ i f b) as [b' log].
    specialize (IH (S i) b').
    destruct (process_files _ _ _ _ _ (S i) files b') as [b'' log'].
    cbn [fst] in *. rewrite IH.
    destruct Hb as [[Hnil ->]|(Hne & ps & _ & ->)].
    + rewrite filter_cons_False by (intros H; apply H; exact Hnil). reflexivity.
    + rewrite filter_cons_True by exact Hne. cbn [processed_count length]. lia.
Qed.

(** X13: after a successful build the last notice is the success
    message, and the number it reports is the number of files of the
    batch that added chunks; rejected files, files without text and files
    with only short chunks are not counted. *)
Theorem success_counts_accepted_files
    (st : Session Index) (files : list UploadedFile)
    (vs : VectorStore Index) (log' : list Event) :
  let added := flat_map (chunks_of MAX_FILE_SIZE_MB CHUNK_SIZE CHUNK_OVERLAP
                           RecursiveCharacterTextSplitter) files in
  added <> [] ->
  get_vector_store embed_documents save_local added = (Some vs, log') ->
  last (process_documents MAX_FILE_SIZE_MB CHUNK_SIZE CHUNK_OVERLAP
          RecursiveCharacterTextSplitter embed_documents save_local now st files).2
  = Some (Shown (Success
       (length (filter (fun f => chunks_of MAX_FILE_SIZE_MB CHUNK_SIZE CHUNK_OVERLAP
                                   RecursiveCharacterTextSplitter f <> []) files)))).
Proof.
  intros added Hne Hbuild. unfold process_documents.
  pose proof (process_files_chunks MAX_FILE_SIZE_MB CHUNK_SIZE CHUNK_OVERLAP
                RecursiveCharacterTextSplitter now files 0%nat (new_batch st)) as Hc.
  pose proof (process_files_count files 0%nat (new_batch st)) as Hn.
  destruct (process_files _ _ _ _ _ 0 files (new_batch st)) as [b log].
  cbn [fst new_batch all_text_chunks processed_count app] in Hc, Hn.
  fold added in Hc. rewrite Hc, Hbuild.
  destruct added as [|c cs]; [congruence|].
  cbn [snd]. rewrite !app_assoc, last_snoc, Hn. reflexivity.
Qed.

End IngestionIndex.

Lemma chunk_kept_iff_witness :
  ("Page 2" ∉ [Py.strip (Demo.text_of Demo.one_page)])
  /\ sublist [Py.strip (Demo.text_of Demo.one_page)]
             [Py.strip (Demo.text_of Demo.one_page); "Page 2"].
Proof.
  destruct (chunk_kept_iff 10000 1000 Demo.with_fragment (Demo.text_of Demo.one_page)
              [Py.strip (Demo.text_of Demo.one_page)]
              (fun text => [Py.strip text; "Page 2"]))
    as [Hsub Hiff].
  - vm_compute. reflexivity.
  - reflexivity.
  - split; [|exact Hsub].
    intros Hin. apply Hiff in Hin as [_ Hlen]. vm_compute in Hlen. lia.
Defined.

Lemma batch_without_chunks_changes_nothing_witness :
  exists log,
    process_documents 50 10000 1000 Demo.whole_text Demo.embed_ok Demo.save_ok Demo.clock
      Demo.old_session [Demo.notes; Demo.blank; Scenario.sky]
    = (Demo.old_session, log)
    /\ last log = Some (Shown ErrNoneProcessed)
    /\ Forall (fun ev => exists n, ev = Shown n) log.
Proof.
  apply (batch_without_chunks_changes_nothing 50 10000 1000 Demo.whole_text
           Demo.embed_ok Demo.save_ok Demo.clock Demo.old_session
           [Demo.notes; Demo.blank; Scenario.sky]).
  vm_compute. reflexivity.
Defined.

Lemma short_documents_are_never_indexed_witness :
  chunks_of 50 10000 1000 Demo.whole_text Scenario.sky = []
  /\ exists log,
       process_documents 50 10000 1000 Demo.whole_text Demo.embed_ok Demo.save_ok
         Demo.clock Demo.empty_session [Scenario.sky]
       = (Demo.empty_session, log)
       /\ last log = Some (Shown ErrNoneProcessed).
Proof.
  destruct (short_documents_are_never_indexed 50 10000 1000 Demo.whole_text
              Demo.embed_ok Demo.save_ok Demo.clock Demo.empty_session [Scenario.sky])
    as [H1 H2].
  - intros split_text text chunk Hs Hin. injection Hs as <-.
    apply list_elem_of_singleton in Hin. subst chunk. apply length_strip_le.
  - intros f Hf. apply list_elem_of_singleton in Hf. subst f. vm_compute. lia.
  - split; [apply H1; left|exact H2].
Defined.

Lemma failed_save_keeps_index_witness :
  let st' := (process_documents 50 10000 1000 Demo.whole_text Demo.embed_ok
                Scenario.save_down Demo.clock Demo.old_session [Demo.two_pages]).1 in
  vector_store st' = Some Demo.old_store
  /\ forall similarity_search chain question,
       process_question similarity_search chain st' question
       = process_question similarity_search chain Demo.old_session question.
Proof.
  apply (failed_save_keeps_index 50 10000 1000 Demo.whole_text Demo.embed_ok
           Scenario.save_down Demo.clock Demo.old_session [Demo.two_pages] tt "disk full");
    reflexivity.
Defined.

Lemma failed_build_still_registers_witness :
  let st' := (process_documents 50 10000 1000 Demo.whole_text Demo.embed_down
                Demo.save_ok Demo.clock Demo.empty_session [Demo.two_pages]).1 in
  vector_store st' = None /\ is_Some (processed_documents st' !! "a.pdf").
Proof.
  apply (failed_build_still_registers 50 10000 1000 Demo.whole_text Demo.embed_down
           Demo.save_ok Demo.clock Demo.empty_session [Demo.two_pages]
           [Embed [Py.strip (Demo.text_of Demo.two_pages)];
            Shown (ErrVectorStore "429 quota exceeded")]
           Demo.two_pages).
  - vm_compute. reflexivity.
  - left.
  - vm_compute. discriminate.
Defined.

Lemma registry_only_grows_witness :
  is_Some (processed_documents
             (process_documents 50 10000 1000 Demo.whole_text Demo.embed_ok Demo.save_ok
                Demo.clock Demo.old_session [Scenario.second]).1 !! "a.pdf").
Proof.
  apply (proj1 (registry_only_grows 50 10000 1000 Demo.whole_text Demo.embed_ok
                  Demo.save_ok Demo.clock Demo.old_session [Scenario.second] "a.pdf")).
  vm_compute. eauto.
Defined.

Lemma success_counts_accepted_files_witness :
  last (process_documents 50 10000 1000 Demo.whole_text Demo.embed_ok Demo.save_ok
          Demo.clock Demo.empty_session
          [Demo.notes; Demo.two_pages; Scenario.sky; Scenario.second]).2
  = Some (Shown (Success 2)).
Proof.
  apply (success_counts_accepted_files 50 10000 1000 Demo.whole_text Demo.embed_ok
           Demo.save_ok Demo.clock Demo.empty_session
           [Demo.notes; Demo.two_pages; Scenario.sky; Scenario.second]
           {| docstore := [Py.strip (Demo.text_of Demo.two_pages);
                           Py.strip (Demo.text_of Scenario.second)];
              index := tt |}
           [Embed [Py.strip (Demo.text_of Demo.two_pages);
                   Py.strip (Demo.text_of Scenario.second)]]).
  - vm_compute. discriminate.
  - vm_compute. reflexivity.
Defined.

(** ** More on answering *)

Section AnsweringMore.

Context {Index : Type}.
Variable similarity_search : VectorStore Index -> string -> nat -> Exn + list Document.
Variable chain : list Document -> string -> Exn + string.

Lemma process_question_returns (st : Session Index) (question : string) :
  exists r log, process_question similarity_search chain st question = (inr r, log).
Proof.
  unfold process_question, answer_from, call, bind, try_except, ret.
  destruct (vector_store st) as [vs|]; [|eauto].
  destruct (similarity_search vs question 5) as [e|[|d docs]]; [eauto..|].
  destruct (chain (d :: docs) question); eauto.
Qed.

(** X14: when the similarity search raises [e], the question is answered
    with "Error processing question: e" and no sources, and the
    generation chain is not called. *)
Theorem search_failure_is_answered
    (st : Session Index) (vs : VectorStore Index) (question : string) (e : Exn) :
  vector_store st = Some vs ->
  similarity_search vs question 5 = inl e ->
  process_question similarity_search chain st question
  = (inr {| answer := "Error processing question: " +:+ e; sources := [] |},
     [Search question]).
Proof.
  intros H Hs. unfold process_question, answer_from, call, bind. rewrite H, Hs.
  reflexivity.
Qed.

(** X15: sources are attached to generated answers only.  A result with
    a source comes from a run in which the search returned documents and
    the chain answered; its answer is the chain's output and it has at
    most one source per retrieved document.  The messages for a missing
    index, an empty search or an error never carry sources. *)
Theorem sources_only_with_generated_answer
    (st : Session Index) (question : string) (r : QueryResult) (log : list Event) :
  process_question similarity_search chain st question = (inr r, log) ->
  sources r <> [] ->
  exists vs docs,
    vector_store st = Some vs
    /\ similarity_search vs question 5 = inr docs
    /\ chain docs question = inr (answer r)
    /\ sources r = omap (fun doc => extract_source_info (page_content doc)) docs
    /\ (length (sources r) <= length docs)%nat
    /\ log = [Search question; Generate docs question].
Proof.
  unfold process_question, answer_from, call, bind, try_except, ret.
  destruct (vector_store st) as [vs|].
  2:{ intros H Hne. injection H as <- _. contradiction. }
  destruct (similarity_search vs question 5) as [e|[|d docs]] eqn:Hs.
  - intros H Hne. injection H as <- _. contradiction.
  - intros H Hne. injection H as <- _. contradiction.
  - destruct (chain (d :: docs) question) as [e|out] eqn:Hc.
    + intros H Hne. injection H as <- _. contradiction.
    + intros H Hne. injection H as <- <-. cbn [answer sources].
      exists vs, (d :: docs). rewrite collect_sources_omap.
      repeat split; try reflexivity; try assumption.
      apply omap_length_le.
Qed.

End AnsweringMore.

Lemma search_failure_is_answered_witness :
  process_question Scenario.search_down Demo.chain_ok Demo.old_session "What is stored?"
  = (inr {| answer := "Error processing question: index corrupted"; sources := [] |},
     [Search "What is stored?"]).
Proof.
  apply (search_failure_is_answered Scenario.search_down Demo.chain_ok Demo.old_session
           Demo.old_store "What is stored?" "index corrupted"); reflexivity.
Defined.

Lemma sources_only_with_generated_answer_witness :
  exists vs docs,
    vector_store Demo.old_session = Some vs
    /\ Demo.search_retrieved vs "q" 5 = inr docs
    /\ Demo.chain_ok docs "q" = inr "Solar panels convert sunlight into electricity."
    /\ [ {| document := "a.pdf"; page := "1" |}; {| document := "a.pdf"; page := "1" |} ]
       = omap (fun doc => extract_source_info (page_content doc)) docs
    /\ (2 <= length docs)%nat
    /\ [Search "q"; Generate Demo.retrieved "q"] = [Search "q"; Generate docs "q"].
Proof.
  apply (sources_only_with_generated_answer Demo.search_retrieved Demo.chain_ok
           Demo.old_session "q"
           {| answer := "Solar panels convert sunlight into electricity.";
              sources := [ {| document := "a.pdf"; page := "1" |};
                           {| document := "a.pdf"; page := "1" |} ] |}
           [Search "q"; Generate Demo.retrieved "q"]).
  - vm_compute. reflexivity.
  - discriminate.
Defined.

(** ** The chat, the documents page and the analytics *)

Lemma truthy_strip (s : string) :
  Py.truthy s && Py.truthy (Py.strip s) = Py.truthy (Py.strip s).
Proof. destruct s; reflexivity. Qed.

Lemma truthy_false (s : string) : Py.truthy s = false <-> s = EmptyString.
Proof. destruct s; split; intros H; try reflexivity; discriminate. Qed.

Section AppProperties.

Context {Index : Type}.
Variables MAX_FILE_SIZE_MB CHUNK_SIZE CHUNK_OVERLAP : Z.
Variable RecursiveCharacterTextSplitter : Z -> Z -> Exn + (string -> list string).
Variable embed_documents : list string -> Exn + Index.
Variable save_local : VectorStore Index -> option Exn.
Variable now : nat -> string.
Variable similarity_search : VectorStore Index -> string -> nat -> Exn + list Document.
Variable chain : list Document -> string -> Exn + string.

(** The three ways a click on "Send" ends. *)
Lemma send_question_spec (app : AppState Index) (user_question t_user t_ai : string) :
  (Py.strip user_question = EmptyString ->
   send_question similarity_search chain app user_question t_user t_ai = (app, Ignored))
  /\ (Py.strip user_question <> EmptyString ->
      processed_documents (session app) = ∅ ->
      send_question similarity_search chain app user_question t_user t_ai
      = (app, Refused))
  /\ (Py.strip user_question <> EmptyString ->
      processed_documents (session app) <> ∅ ->
      exists r log,
        process_question similarity_search chain (session app) user_question
        = (inr r, log)
        /\ send_question similarity_search chain app user_question t_user t_ai
           = ({| session := session app;
                 chat_history :=
                   chat_history app
                   ++ [UserMessage user_question t_user;
                       AiMessage (answer r) (sources r) t_ai] |},
              Answered log)).
Proof.
  unfold send_question. rewrite truthy_strip.
  split; [|split].
  - intros ->. reflexivity.
  - intros Hq Hreg. destruct (Py.truthy (Py.strip user_question)) eqn:E;
      [|apply truthy_false in E; contradiction].
    rewrite Hreg, map_size_empty. reflexivity.
  - intros Hq Hreg. destruct (Py.truthy (Py.strip user_question)) eqn:E;
      [|apply truthy_false in E; contradiction].
    destruct (Nat.eqb_spec (size (processed_documents (session app))) 0) as [Hz|_];
      [apply map_size_empty_iff in Hz; contradiction|].
    destruct (process_question_returns similarity_search chain (session app) user_question)
      as (r & log & Hr).
    exists r, log. split; [exact Hr|]. rewrite Hr, <- app_assoc. reflexivity.
Qed.

(** X16: a click on "Send" does one of three things.  A question that is
    empty or blank changes nothing; a question asked while the registry of
    processed documents is empty is refused and changes nothing; any
    other question is answered, and exactly two messages are appended to
    the chat history: the question, then the answer of [process_question]
    with its sources.  The handler never stops between the two. *)
Theorem send_appends_question_and_answer
    (app : AppState Index) (user_question t_user t_ai : string) :
  (Py.strip user_question = EmptyString ->
   send_question similarity_search chain app user_question t_user t_ai = (app, Ignored))
  /\ (Py.strip user_question <> EmptyString ->
      processed_documents (session app) = ∅ ->
      send_question similarity_search chain app user_question t_user t_ai
      = (app, Refused))
  /\ (Py.strip user_question <> EmptyString ->
      processed_documents (session app) <> ∅ ->
      exists r log,
        process_question similarity_search chain (session app) user_question
        = (inr r, log)
        /\ send_question similarity_search chain app user_question t_user t_ai
           = ({| session := session app;
                 chat_history :=
                   chat_history app
                   ++ [UserMessage user_question t_user;
                       AiMessage (answer r) (sources r) t_ai] |},
              Answered log)).
Proof. apply send_question_spec. Qed.

(** X17: the chat asks the registry, the answer asks the index.  After a
    first batch whose files added chunks but whose build failed, the
    registry is not empty and the index reference is still missing: a
    question is then accepted, recorded in the chat and answered with
    "Please upload and process documents first.", without a backend
    call. *)
Theorem question_after_failed_first_build
    (st : Session Index) (files : list UploadedFile) (log : list Event)
    (f : UploadedFile) (history : list ChatMessage)
    (user_question t_user t_ai : string) :
  vector_store st = None ->
  get_vector_store embed_documents save_local
    (flat_map (chunks_of MAX_FILE_SIZE_MB CHUNK_SIZE CHUNK_OVERLAP
                 RecursiveCharacterTextSplitter) files) = (None, log) ->
  f ∈ files ->
  chunks_of MAX_FILE_SIZE_MB CHUNK_SIZE CHUNK_OVERLAP
    RecursiveCharacterTextSplitter f <> [] ->
  Py.strip user_question <> EmptyString ->
  let st' := (process_documents MAX_FILE_SIZE_MB CHUNK_SIZE CHUNK_OVERLAP
                RecursiveCharacterTextSplitter embed_documents save_local now
                st files).1 in
  send_question similarity_search chain
    {| session := st'; chat_history := history |} user_question t_user t_ai
  = ({| session := st';
        chat_history :=
          history ++ [UserMessage user_question t_user;
                      AiMessage "Please upload and process documents first." [] t_ai] |},
     Answered []).
Proof.
  intros Hnone Hbuild Hf Hc Hq st'.
  destruct (process_documents_session MAX_FILE_SIZE_MB CHUNK_SIZE CHUNK_OVERLAP
              RecursiveCharacterTextSplitter embed_documents save_local now st files)
    as [Hreg Hvs].
  fold st' in Hreg, Hvs.
  assert (Hvs' : vector_store st' = None).
  { rewrite Hvs, Hbuild, Hnone. destruct (flat_map _ files); reflexivity. }
  assert (Hne : processed_documents st' <> ∅).
  { rewrite Hreg.
    destruct (process_files_registry_written MAX_FILE_SIZE_MB CHUNK_SIZE CHUNK_OVERLAP
                RecursiveCharacterTextSplitter now files 0%nat (new_batch st) f Hf Hc)
      as (g & ps & m & _ & _ & _ & Hm & _).
    intros Hempty. rewrite Hempty, lookup_empty in Hm. discriminate. }
  destruct (send_question_spec {| session := st'; chat_history := history |}
              user_question t_user t_ai) as (_ & _ & H).
  destruct (H Hq Hne) as (r & l & Hr & Hsend). rewrite Hsend.
  cbn [session chat_history] in Hr. unfold process_question in Hr.
  rewrite Hvs' in Hr. injection Hr as <- <-. reflexivity.
Qed.

(** X18: after "Remove All" the chat is empty, the analytics page has
    nothing to show, and a click on "Send" changes nothing: a blank
    question is ignored and any other is refused, so no question reaches
    a backend until documents are processed again. *)
Theorem remove_all_closes_the_chat
    (app : AppState Index) (user_question t_user t_ai : string) :
  chat_history (remove_all app) = []
  /\ render_analytics (remove_all app) = None
  /\ send_question similarity_search chain (remove_all app) user_question t_user t_ai
     = (remove_all app,
        if Py.truthy (Py.strip user_question) then Refused else Ignored).
Proof.
  split; [reflexivity|]. split; [reflexivity|].
  unfold send_question. rewrite truthy_strip.
  destruct (Py.truthy (Py.strip user_question)); reflexivity.
Qed.

(** X19: each answered question raises the number of conversations shown
    by the analytics page by exactly one and leaves the other figures as
    they were. *)
Theorem answered_question_counts_once
    (app app' : AppState Index) (user_question t_user t_ai : string) (log : list Event) :
  send_question similarity_search chain app user_question t_user t_ai
  = (app', Answered log) ->
  exists stats stats',
    render_analytics app = Some stats
    /\ render_analytics app' = Some stats'
    /\ total_conversations stats' = S (total_conversations stats)
    /\ total_docs stats' = total_docs stats
    /\ total_pages stats' = total_pages stats
    /\ total_chunks stats' = total_chunks stats.
Proof.
  unfold send_question.
  destruct (_ && _); [|discriminate].
  destruct (Nat.eqb_spec (size (processed_documents (session app))) 0) as [|Hsize];
    [discriminate|].
  destruct (process_question similarity_search chain (session app) user_question)
    as [[e|r] l]; [discriminate|].
  intros H. injection H as <- _.
  unfold render_analytics. cbn [session chat_history].
  destruct (Nat.eqb_spec (size (processed_documents (session app))) 0) as [|_];
    [contradiction|].
  eexists _, _. split; [reflexivity|]. split; [reflexivity|].
  cbn [total_conversations total_docs total_pages total_chunks].
  split; [|auto].
  rewrite !length_app. cbn [length].
  replace (length (chat_history app) + 1 + 1)%nat
    with (length (chat_history app) + 1 * 2)%nat by lia.
  rewrite Nat.div_add by lia. lia.
Qed.

End AppProperties.

Section AnalyticsProperties.

Context {Index : Type}.
Variables MAX_FILE_SIZE_MB CHUNK_SIZE CHUNK_OVERLAP : Z.
Variable RecursiveCharacterTextSplitter : Z -> Z -> Exn + (string -> list string).
Variable embed_documents : list string -> Exn + Index.
Variable save_local : VectorStore Index -> option Exn.
Variable now : nat -> string.

Lemma flat_map_not_nil {A B} (g : A -> list B) (l : list A) :
  flat_map g l <> [] -> exists x, x ∈ l /\ g x <> [].
Proof.
  induction l as [|a l IH]; cbn [flat_map]; [congruence|].
  intros H. destruct (g a) as [|y ys] eqn:E.
  - destruct (IH H) as (x & Hx & Hg). exists x. split; [right; exact Hx|exact Hg].
  - exists a. split; [left|congruence].
Qed.

(** What the loop adds to the three sums of the analytics page when the
    files of the batch have distinct names not yet in the registry. *)
Lemma process_files_totals (files : list UploadedFile) :
  forall i b,
    NoDup (name <$> files) ->
    (forall f, f ∈ files -> registry b !! name f = None) ->
    let accepted := filter (fun f => chunks_of MAX_FILE_SIZE_MB CHUNK_SIZE CHUNK_OVERLAP
                                       RecursiveCharacterTextSplitter f <> []) files in
    let b' := (process_files MAX_FILE_SIZE_MB CHUNK_SIZE CHUNK_OVERLAP
                 RecursiveCharacterTextSplitter now i files b).1 in
    size (registry b') = (size (registry b) + length accepted)%nat
    /\ map_fold (fun _ doc acc => (chunks doc + acc)%nat) 0%nat (registry b')
       = (map_fold (fun _ doc acc => (chunks doc + acc)%nat) 0%nat (registry b)
          + length (flat_map (chunks_of MAX_FILE_SIZE_MB CHUNK_SIZE CHUNK_OVERLAP
                                RecursiveCharacterTextSplitter) files))%nat
    /\ map_fold (fun _ doc acc => (pages doc + acc)%nat) 0%nat (registry b')
       = (map_fold (fun _ doc acc => (pages doc + acc)%nat) 0%nat (registry b)
          + sum_list_with (fun f => match reader f with
                                    | Pages ps => length ps
                                    | Unreadable _ => 0%nat
                                    end) accepted)%nat.
Proof.
  induction files as [|f files IH]; intros i b Hnodup Hfresh; cbv zeta.
  - cbn [process_files fst flat_map]. rewrite filter_nil. simpl. lia.
  - cbn [process_files flat_map].
    rewrite fmap_cons in Hnodup. apply NoDup_cons in Hnodup as [Hf Hnodup].
    pose proof (process_file_batch MAX_FILE_SIZE_MB CHUNK_SIZE CHUNK_OVERLAP
                  RecursiveCharacterTextSplitter now i f b) as Hb.
    cbv zeta in Hb.
    destruct (process_file _ _ _ _ _ i f b) as [b1 log].
    assert (Hfresh1 : forall g, g ∈ files -> registry b1 !! name g = None).
    { intros g Hg. cbn [fst] in Hb.
      assert (Hb0 : registry b !! name g = None) by (apply Hfresh; right; exact Hg).
      destruct Hb as [[_ ->]|(_ & ps & _ & ->)]; [exact Hb0|].
      cbn [registry]. rewrite lookup_insert_ne; [exact Hb0|].
      intros Heq. apply Hf. rewrite Heq. apply list_elem_of_fmap. eauto. }
    specialize (IH (S i) b1 Hnodup Hfresh1). cbv zeta in IH.
    destruct (process_files _ _ _ _ _ (S i) files b1) as [b2 log'].
    cbn [fst] in *. destruct IH as (IH1 & IH2 & IH3).
    rewrite IH1, IH2, IH3. clear IH1 IH2 IH3.
    assert (Hnew : registry b !! name f = None) by (apply Hfresh; left).
    destruct Hb as [[Hnil ->]|(Hne & ps & Hr & ->)].
    + rewrite filter_cons_False by (intros H; apply H; exact Hnil).
      rewrite Hnil. cbn [app]. auto.
    + rewrite filter_cons_True by exact Hne.
      cbn [registry length sum_list_with]. rewrite Hr.
      rewrite (map_size_insert_None _ _ _ Hnew).
      rewrite !map_fold_insert_L by (try exact Hnew; intros; lia).
      cbn [chunks pages]. rewrite length_app. lia.
Qed.

(** X20: how the figures of the analytics page move with a batch whose
    files have distinct names not yet in the registry and whose build
    succeeds: the number of documents grows by the number of files that
    added chunks, the number of pages by their page counts, and the
    number of chunks by the size of the new index.  The chunk figure
    therefore equals the size of the index only when the registry was
    empty before; chunks of earlier batches stay counted although the new
    index no longer holds them. *)
Theorem analytics_follow_the_registry
    (st : Session Index) (files : list UploadedFile)
    (vs : VectorStore Index) (log' : list Event) (history : list ChatMessage) :
  let added := flat_map (chunks_of MAX_FILE_SIZE_MB CHUNK_SIZE CHUNK_OVERLAP
                           RecursiveCharacterTextSplitter) files in
  let accepted := filter (fun f => chunks_of MAX_FILE_SIZE_MB CHUNK_SIZE CHUNK_OVERLAP
                                     RecursiveCharacterTextSplitter f <> []) files in
  NoDup (name <$> files) ->
  (forall f, f ∈ files -> processed_documents st !! name f = None) ->
  added <> [] ->
  get_vector_store embed_documents save_local added = (Some vs, log') ->
  let st' := (process_documents MAX_FILE_SIZE_MB CHUNK_SIZE CHUNK_OVERLAP
                RecursiveCharacterTextSplitter embed_documents save_local now
                st files).1 in
  exists stats,
    render_analytics {| session := st'; chat_history := history |} = Some stats
    /\ vector_store st' = Some vs
    /\ total_docs stats = (size (processed_documents st) + length accepted)%nat
    /\ total_chunks stats
       = (map_fold (fun _ doc acc => (chunks doc + acc)%nat) 0%nat (processed_documents st)
          + length (docstore vs))%nat
    /\ total_pages stats
       = (map_fold (fun _ doc acc => (pages doc + acc)%nat) 0%nat (processed_documents st)
          + sum_list_with (fun f => match reader f with
                                    | Pages ps => length ps
                                    | Unreadable _ => 0%nat
                                    end) accepted)%nat.
Proof.
  intros added accepted Hnodup Hfresh Hne Hbuild st'.
  destruct (process_documents_session MAX_FILE_SIZE_MB CHUNK_SIZE CHUNK_OVERLAP
              RecursiveCharacterTextSplitter embed_documents save_local now st files)
    as [Hreg Hvs].
  fold st' added in Hreg, Hvs.
  destruct (process_files_totals files 0%nat (new_batch st) Hnodup Hfresh)
    as (H1 & H2 & H3).
  fold accepted added in H1, H2, H3. rewrite <- Hreg in H1, H2, H3.
  cbn [new_batch registry] in H1, H2, H3.
  assert (Hpos : (0 < length accepted)%nat).
  { destruct (flat_map_not_nil _ files Hne) as (f & Hf & Hc).
    assert (Hin : f ∈ accepted) by (apply list_elem_of_filter; split; assumption).
    destruct accepted; [inversion Hin|simpl; lia]. }
  unfold render_analytics. cbn [session chat_history].
  destruct (Nat.eqb_spec (size (processed_documents st')) 0) as [Hz|_]; [lia|].
  eexists. split; [reflexivity|].
  cbn [total_docs total_chunks total_pages].
  split; [rewrite Hvs, Hbuild; destruct added; [congruence|reflexivity]|].
  rewrite (get_vector_store_docstore _ _ _ _ _ Hbuild).
  split; [exact H1|]. split; [exact H2|exact H3].
Qed.

End AnalyticsProperties.

Lemma send_appends_question_and_answer_witness :
  send_question Demo.search_retrieved Demo.chain_ok
    {| session := Demo.old_session; chat_history := [] |} "   " "10:00:00" "10:00:01"
  = ({| session := Demo.old_session; chat_history := [] |}, Ignored)
  /\ send_question Demo.search_retrieved Demo.chain_ok
       {| session := Demo.empty_session; chat_history := [] |}
       "What do panels do?" "10:00:00" "10:00:01"
     = ({| session := Demo.empty_session; chat_history := [] |}, Refused)
  /\ exists r log,
       process_question Demo.search_retrieved Demo.chain_ok Demo.old_session
         "What do panels do?" = (inr r, log)
       /\ send_question Demo.search_retrieved Demo.chain_ok
            {| session := Demo.old_session; chat_history := [] |}
            "What do panels do?" "10:00:00" "10:00:01"
          = ({| session := Demo.old_session;
                chat_history := [UserMessage "What do panels do?" "10:00:00";
                                 AiMessage (answer r) (sources r) "10:00:01"] |},
             Answered log).
Proof.
  split; [|split].
  - apply (proj1 (send_appends_question_and_answer Demo.search_retrieved Demo.chain_ok
                    {| session := Demo.old_session; chat_history := [] |}
                    "   " "10:00:00" "10:00:01")).
    reflexivity.
  - apply (proj1 (proj2 (send_appends_question_and_answer Demo.search_retrieved
                           Demo.chain_ok
                           {| session := Demo.empty_session; chat_history := [] |}
                           "What do panels do?" "10:00:00" "10:00:01")));
      [discriminate|reflexivity].
  - apply (proj2 (proj2 (send_appends_question_and_answer Demo.search_retrieved
                           Demo.chain_ok
                           {| session := Demo.old_session; chat_history := [] |}
                           "What do panels do?" "10:00:00" "10:00:01")));
      [discriminate|].
    intros H. apply (f_equal (fun m : gmap string DocMeta => m !! "a.pdf")) in H.
    vm_compute in H. discriminate.
Defined.

Lemma question_after_failed_first_build_witness :
  let st' := (process_documents 50 10000 1000 Demo.whole_text Demo.embed_down
                Demo.save_ok Demo.clock Demo.empty_session [Demo.two_pages]).1 in
  send_question Demo.search_all Demo.chain_ok
    {| session := st'; chat_history := [] |} "What do panels do?" "10:00:00" "10:00:01"
  = ({| session := st';
        chat_history :=
          [UserMessage "What do panels do?" "10:00:00";
           AiMessage "Please upload and process documents first." [] "10:00:01"] |},
     Answered []).
Proof.
  apply (question_after_failed_first_build 50 10000 1000 Demo.whole_text Demo.embed_down
           Demo.save_ok Demo.clock Demo.search_all Demo.chain_ok
           Demo.empty_session [Demo.two_pages]
           [Embed [Py.strip (Demo.text_of Demo.two_pages)];
            Shown (ErrVectorStore "429 quota exceeded")]
           Demo.two_pages [] "What do panels do?" "10:00:00" "10:00:01").
  - reflexivity.
  - vm_compute. reflexivity.
  - left.
  - vm_compute. discriminate.
  - discriminate.
Defined.

Lemma answered_question_counts_once_witness :
  exists stats stats',
    render_analytics {| session := Demo.old_session; chat_history := [] |} = Some stats
    /\ render_analytics
         {| session := Demo.old_session;
            chat_history :=
              [UserMessage "q" "10:00:00";
               AiMessage "Solar panels convert sunlight into electricity."
                 [ {| document := "a.pdf"; page := "1" |};
                   {| document := "a.pdf"; page := "1" |} ] "10:00:01"] |}
       = Some stats'
    /\ total_conversations stats' = S (total_conversations stats)
    /\ total_docs stats' = total_docs stats
    /\ total_pages stats' = total_pages stats
    /\ total_chunks stats' = total_chunks stats.
Proof.
  apply (answered_question_counts_once Demo.search_retrieved Demo.chain_ok
           {| session := Demo.old_session; chat_history := [] |} _
           "q" "10:00:00" "10:00:01"
           [Search "q"; Generate Demo.retrieved "q"]).
  vm_compute. reflexivity.
Defined.

Lemma analytics_follow_the_registry_witness :
  let st' := (process_documents 50 10000 1000 Demo.whole_text Demo.embed_ok
                Demo.save_ok Demo.clock Demo.old_session [Scenario.second]).1 in
  exists stats,
    render_analytics {| session := st'; chat_history := [] |} = Some stats
    /\ vector_store st'
       = Some {| docstore := [Py.strip (Demo.text_of Scenario.second)]; index := tt |}
    /\ total_docs stats = 2%nat
    /\ total_chunks stats = 4%nat
    /\ total_pages stats = 10%nat.
Proof.
  destruct (analytics_follow_the_registry 50 10000 1000 Demo.whole_text Demo.embed_ok
              Demo.save_ok Demo.clock Demo.old_session [Scenario.second]
              {| docstore := [Py.strip (Demo.text_of Scenario.second)]; index := tt |}
              [Embed [Py.strip (Demo.text_of Scenario.second)]] [])
    as (stats & H1 & H2 & H3 & H4 & H5).
  - vm_compute. repeat constructor. intros H. inversion H.
  - intros f Hf. apply list_elem_of_singleton in Hf. subst f. vm_compute. reflexivity.
  - vm_compute. discriminate.
  - vm_compute. reflexivity.
  - exists stats. split; [exact H1|]. split; [exact H2|].
    split; [rewrite H3|split; [rewrite H4|rewrite H5]]; vm_compute; reflexivity.
Defined.

(** ** The start-up scripts *)

Lemma prefix_app_l (p q s : string) :
  String.prefix (p +:+ q) s = true -> String.prefix p s = true.
Proof.
  revert s. induction p as [|a p IH]; intros s H; [apply prefix_empty|].
  rewrite append_cons in H. destruct s as [|b s]; [discriminate|].
  cbn [String.prefix] in *. destruct (ascii_dec a b); [apply IH, H|discriminate].
Qed.

Lemma contains_app_l (p q s : string) :
  Py.contains (p +:+ q) s = true -> Py.contains p s = true.
Proof.
  induction s as [|c s IH]; cbn [Py.contains]; intros H.
  - apply orb_true_iff in H as [H|H]; [|discriminate].
    rewrite (prefix_app_l _ _ _ H). reflexivity.
  - apply orb_true_iff in H as [H|H].
    + rewrite (prefix_app_l _ _ _ H). reflexivity.
    + rewrite (IH H). apply orb_true_r.
Qed.

Lemma placeholder_has_entry (content : string) :
  Py.contains placeholder content = true -> Py.contains "GOOGLE_API_KEY=" content = true.
Proof. apply (contains_app_l "GOOGLE_API_KEY=" "your_google_api_key_here"). Qed.

(** With an entry in the content, both indexings of [api_key_of] are in
    range. *)
Lemma api_key_of_some (content : string) :
  Py.contains "GOOGLE_API_KEY=" content = true ->
  exists api_key, api_key_of content = Some api_key.
Proof.
  intros H. unfold api_key_of.
  destruct (split_contains_two "GOOGLE_API_KEY=" content) as (p & q & r & ->);
    [discriminate|exact H|].
  unfold Py.split.
  destruct (Py.split_go Py.newline 0 q) as [|line rest] eqn:E;
    [exfalso; exact (split_go_not_nil _ _ _ E)|eauto].
Qed.

(** The value of a content with one entry: what stands between the entry
    name and the end of its line, trimmed. *)
Lemma api_key_of_entry (before key rest : string) :
  Py.contains "GOOGLE_API_KEY=" (before +:+ "GOOGLE_API_KEY") = false ->
  Py.contains "GOOGLE_API_KEY=" (key +:+ Py.newline +:+ rest) = false ->
  Py.contains Py.newline key = false ->
  api_key_of (before +:+ "GOOGLE_API_KEY=" +:+ key +:+ Py.newline +:+ rest)
  = Some (Py.strip key).
Proof.
  intros Hbefore Hafter Hkey. unfold api_key_of, Py.split.
  pose proof (split_first "GOOGLE_API_KEY" "=" before (key +:+ Py.newline +:+ rest) Hbefore)
    as H1.
  cbv zeta in H1.
  change ("GOOGLE_API_KEY" +:+ String "=" EmptyString) with "GOOGLE_API_KEY=" in H1.
  rewrite H1.
  pose proof (split_absent _ _ Hafter) as H2. unfold Py.split in H2. rewrite H2.
  assert (Hk : Py.contains Py.newline (key +:+ EmptyString) = false)
    by (rewrite append_nil_r; exact Hkey).
  pose proof (split_first EmptyString (ascii_of_nat 10) key rest Hk) as H3.
  cbv zeta in H3.
  change (EmptyString +:+ String (ascii_of_nat 10) EmptyString) with Py.newline in H3.
  rewrite H3. reflexivity.
Qed.

(** X21: [check_api_key] of [run.py] judges the first entry it finds.
    For a content without the placeholder and with one
    [GOOGLE_API_KEY=] entry, wherever on its line the entry stands, the
    key is what follows the entry name up to the end of the line, and it
    passes exactly when it has more than 10 characters after trimming. *)
Theorem check_api_key_reads_the_entry (before key rest : string) :
  let content := before +:+ "GOOGLE_API_KEY=" +:+ key +:+ Py.newline +:+ rest in
  Py.contains placeholder content = false ->
  Py.contains "GOOGLE_API_KEY=" (before +:+ "GOOGLE_API_KEY") = false ->
  Py.contains "GOOGLE_API_KEY=" (key +:+ Py.newline +:+ rest) = false ->
  Py.contains Py.newline key = false ->
  RunPy.check_api_key (Some content)
  = Some (10 <? String.length (Py.strip key))%nat.
Proof.
  intros content Hph Hbefore Hafter Hkey. unfold RunPy.check_api_key.
  rewrite Hph.
  assert (Hin : Py.contains "GOOGLE_API_KEY=" content = true).
  { unfold content. apply contains_append_r, contains_prefix.
    apply (prefix_append "GOOGLE_API_KEY="). }
  rewrite Hin. unfold content.
  rewrite (api_key_of_entry before key rest Hbefore Hafter Hkey). reflexivity.
Qed.

(** X22: the key checks of [run.py] and [quick_start.py] never fail with
    an [IndexError]: whatever the [.env] file holds, [check_api_key],
    [check_environment] and [main] return. *)
Theorem key_checks_never_raise
    (dotenv : option string) (env : QuickStartPy.Environment) :
  (exists b, RunPy.check_api_key dotenv = Some b)
  /\ (exists s, QuickStartPy.check_environment env = Some s)
  /\ (exists r, QuickStartPy.main env = Some r).
Proof.
  assert (H2 : exists s, QuickStartPy.check_environment env = Some s).
  { unfold QuickStartPy.check_environment.
    destruct (negb _); [eauto|]. destruct (negb _); [eauto|].
    destruct (filter _ _); [|eauto].
    destruct (QuickStartPy.dotenv env) as [content|]; [|eauto].
    destruct (Py.contains placeholder content); [eauto|].
    destruct (Py.contains "GOOGLE_API_KEY=" content) eqn:E; [|eauto].
    destruct (api_key_of_some content E) as [k ->].
    destruct (_ <? _)%nat; eauto. }
  split; [|split; [exact H2|]].
  - unfold RunPy.check_api_key. destruct dotenv as [content|]; [|eauto].
    destruct (Py.contains placeholder content); [eauto|].
    destruct (Py.contains "GOOGLE_API_KEY=" content) eqn:E; [|eauto].
    destruct (api_key_of_some content E) as [k ->]. eauto.
  - unfold QuickStartPy.main. destruct H2 as [s ->]. destruct s; eauto.
Qed.

(** X23: the three scripts judge the same [.env] file by rules of rising
    strictness.  When [quick_start.py] finds the file ready and the file
    has an entry, [run.py] accepts it too; when [run.py] accepts it,
    [setup.py] reports the environment ready. *)
Theorem key_checks_are_ordered (env : QuickStartPy.Environment) (content : string) :
  QuickStartPy.dotenv env = Some content ->
  (QuickStartPy.check_environment env = Some QuickStartPy.Ready ->
   Py.contains "GOOGLE_API_KEY=" content = true ->
   RunPy.check_api_key (Some content) = Some true)
  /\ (RunPy.check_api_key (Some content) = Some true ->
      (SetupPy.setup_environment (Some content)).1 = true).
Proof.
  intros Henv. split.
  - unfold QuickStartPy.check_environment, RunPy.check_api_key. rewrite Henv.
    destruct (negb _); [discriminate|]. destruct (negb _); [discriminate|].
    destruct (filter _ _); [|discriminate].
    destruct (Py.contains placeholder content); [discriminate|].
    intros H Hin. rewrite Hin in *.
    destruct (api_key_of content) as [k|]; [|discriminate].
    destruct (Nat.ltb_spec 20 (String.length k)) as [Hlen|]; [|discriminate].
    destruct (Nat.ltb_spec 10 (String.length k)); [reflexivity|lia].
  - unfold RunPy.check_api_key, SetupPy.setup_environment.
    destruct (Py.contains placeholder content); [discriminate|].
    destruct (Py.contains "GOOGLE_API_KEY=" content); reflexivity.
Qed.

(** X24: an [.env] file without any [GOOGLE_API_KEY=] entry divides the
    scripts: [run.py] rejects it, while [setup.py] reports the
    environment ready and [quick_start.py], when Python, [app.py] and the
    modules are in order, starts the application. *)
Theorem env_without_entry_divides_the_scripts
    (env : QuickStartPy.Environment) (content : string) :
  QuickStartPy.dotenv env = Some content ->
  Py.contains "GOOGLE_API_KEY=" content = false ->
  3 <= QuickStartPy.py_major env ->
  8 <= QuickStartPy.py_minor env ->
  QuickStartPy.app_py_exists env = true ->
  (forall module, module ∈ QuickStartPy.required_modules ->
                  QuickStartPy.importable env module = true) ->
  RunPy.check_api_key (Some content) = Some false
  /\ SetupPy.setup_environment (Some content) = (true, Some content)
  /\ QuickStartPy.check_environment env = Some QuickStartPy.Ready
  /\ QuickStartPy.main env = Some ([QuickStartPy.StartStreamlit], Some content).
Proof.
  intros Henv Hno Hmajor Hminor Happ Hmods.
  assert (Hph : Py.contains placeholder content = false).
  { destruct (Py.contains placeholder content) eqn:E; [|reflexivity].
    rewrite (placeholder_has_entry _ E) in Hno. discriminate. }
  assert (Hready : QuickStartPy.check_environment env = Some QuickStartPy.Ready).
  { unfold QuickStartPy.check_environment.
    destruct (Z.leb_spec 3 (QuickStartPy.py_major env)); [|lia].
    destruct (Z.leb_spec 8 (QuickStartPy.py_minor env)); [|lia].
    rewrite Happ. cbn [andb negb].
    rewrite filter_none.
    - rewrite Henv, Hph, Hno. reflexivity.
    - apply Forall_forall. intros m Hm. rewrite (Hmods m Hm). discriminate. }
  unfold RunPy.check_api_key, SetupPy.setup_environment, QuickStartPy.main.
  rewrite Hph, Hno, Hready, Henv. repeat split; reflexivity.
Qed.

Lemma check_environment_ready (env : QuickStartPy.Environment) :
  QuickStartPy.check_environment env = Some QuickStartPy.Ready ->
  3 <= QuickStartPy.py_major env /\ 8 <= QuickStartPy.py_minor env
  /\ QuickStartPy.app_py_exists env = true
  /\ (forall module, module ∈ QuickStartPy.required_modules ->
                     QuickStartPy.importable env module = true)
  /\ exists content, QuickStartPy.dotenv env = Some content
                     /\ Py.contains placeholder content = false.
Proof.
  unfold QuickStartPy.check_environment.
  destruct (Z.leb_spec 3 (QuickStartPy.py_major env)) as [Hmajor|_];
    cbn [andb negb]; [|discriminate].
  destruct (Z.leb_spec 8 (QuickStartPy.py_minor env)) as [Hminor|_];
    cbn [negb]; [|discriminate].
  destruct (QuickStartPy.app_py_exists env) eqn:Happ; cbn [negb]; [|discriminate].
  destruct (filter _ QuickStartPy.required_modules) as [|m ms] eqn:Hmissing;
    [|discriminate].
  intros Hready. split; [exact Hmajor|]. split; [exact Hminor|]. split; [reflexivity|].
  split.
  - intros module Hm.
    destruct (QuickStartPy.importable env module) eqn:E; [reflexivity|].
    assert (Hin : module ∈ filter (fun module => QuickStartPy.importable env module = false)
                              QuickStartPy.required_modules)
      by (apply list_elem_of_filter; split; assumption).
    rewrite Hmissing in Hin. inversion Hin.
  - destruct (QuickStartPy.dotenv env) as [content|]; [|discriminate].
    exists content. split; [reflexivity|].
    destruct (Py.contains placeholder content); [discriminate|reflexivity].
Qed.

Lemma check_environment_env_needed (env : QuickStartPy.Environment) :
  QuickStartPy.check_environment env = Some QuickStartPy.EnvNeeded ->
  QuickStartPy.dotenv env = None.
Proof.
  unfold QuickStartPy.check_environment.
  destruct (negb _); [discriminate|]. destruct (negb _); [discriminate|].
  destruct (filter _ _); [|discriminate].
  destruct (QuickStartPy.dotenv env) as [content|]; [|reflexivity].
  destruct (Py.contains placeholder content); [discriminate|].
  destruct (Py.contains "GOOGLE_API_KEY=" content); [|discriminate].
  destruct (api_key_of content); [|discriminate].
  destruct (_ <? _)%nat; discriminate.
Qed.

(** X25: [main] of [quick_start.py] starts the application only when
    Python is at least 3.8 by its test, [app.py] exists, the required
    modules import and an [.env] file without the placeholder exists; it
    never replaces an [.env] file that exists, and it writes the template
    only when there is none. *)
Theorem quick_start_launch_conditions
    (env : QuickStartPy.Environment) (actions : list QuickStartPy.Action)
    (left_env : option string) :
  QuickStartPy.main env = Some (actions, left_env) ->
  (QuickStartPy.StartStreamlit ∈ actions ->
     3 <= QuickStartPy.py_major env /\ 8 <= QuickStartPy.py_minor env
     /\ QuickStartPy.app_py_exists env = true
     /\ (forall module, module ∈ QuickStartPy.required_modules ->
                        QuickStartPy.importable env module = true)
     /\ exists content, QuickStartPy.dotenv env = Some content
                        /\ Py.contains placeholder content = false)
  /\ (forall content, QuickStartPy.dotenv env = Some content -> left_env = Some content)
  /\ (QuickStartPy.CreateEnvFile ∈ actions ->
      QuickStartPy.dotenv env = None /\ left_env = Some env_content).
Proof.
  unfold QuickStartPy.main.
  destruct (QuickStartPy.check_environment env) as [[]|] eqn:Hce; [| | | |discriminate];
    intros Hmain; injection Hmain as <- <-.
  - split; [intros _; apply check_environment_ready, Hce|].
    split; [auto|]. intros Hin. apply list_elem_of_singleton in Hin. discriminate.
  - split; [intros Hin; apply list_elem_of_singleton in Hin; discriminate|].
    split; [auto|]. intros Hin. apply list_elem_of_singleton in Hin. discriminate.
  - split; [intros Hin; apply list_elem_of_singleton in Hin; discriminate|].
    split; [auto|]. intros Hin. apply list_elem_of_singleton in Hin. discriminate.
  - pose proof (check_environment_env_needed env Hce) as Hnone.
    split; [|split; [intros c Hc; congruence|auto]].
    intros Hin. apply elem_of_cons in Hin as [|Hin]; [discriminate|].
    apply list_elem_of_singleton in Hin. discriminate.
Qed.

(** X26: the placeholder wins over everything else in the file.  An
    [.env] file that holds the placeholder, whatever else it holds, is
    turned down by [run.py] and [setup.py], never lets [quick_start.py]
    start the application, and is left as it is; the file that [setup.py]
    writes when there is none is such a file. *)
Theorem placeholder_blocks_every_script :
  (forall content,
     Py.contains placeholder content = true ->
     RunPy.check_api_key (Some content) = Some false
     /\ SetupPy.setup_environment (Some content) = (false, Some content)
     /\ forall env actions left_env,
          QuickStartPy.dotenv env = Some content ->
          QuickStartPy.main env = Some (actions, left_env) ->
          (QuickStartPy.StartStreamlit ∉ actions) /\ left_env = Some content)
  /\ exists written,
       SetupPy.setup_environment None = (false, Some written)
       /\ Py.contains placeholder written = true.
Proof.
  split.
  - intros content Hph. unfold RunPy.check_api_key, SetupPy.setup_environment.
    rewrite Hph. split; [reflexivity|]. split; [reflexivity|].
    intros env actions left_env Henv Hmain. split.
    + intros Hin. unfold QuickStartPy.main in Hmain.
      destruct (QuickStartPy.check_environment env) as [[]|] eqn:Hce;
        [| | | |discriminate]; injection Hmain as <- <-.
      * destruct (check_environment_ready env Hce) as (_ & _ & _ & _ & c & Hc & Hno).
        congruence.
      * apply list_elem_of_singleton in Hin. discriminate.
      * apply list_elem_of_singleton in Hin. discriminate.
      * apply elem_of_cons in Hin as [|Hin]; [discriminate|].
        apply list_elem_of_singleton in Hin. discriminate.
    + unfold QuickStartPy.main in Hmain.
      destruct (QuickStartPy.check_environment env) as [[]|] eqn:Hce;
        [| | | |discriminate]; injection Hmain as <- <-; try exact Henv.
      rewrite (check_environment_env_needed env Hce) in Henv. discriminate.
  - exists env_content. split; [reflexivity|]. vm_compute. reflexivity.
Qed.

(** X27: the two tests of the Python version differ.  Whenever
    [check_environment] of [quick_start.py] gets past its test,
    [check_python_version] of [setup.py] accepts the version; but a major
    version above 3 with a minor version below 8 is accepted by
    [setup.py] and turned down by [quick_start.py].  [setup.py] accepts
    exactly the versions from 3.8 on. *)
Theorem python_version_tests (env : QuickStartPy.Environment) :
  let major := QuickStartPy.py_major env in
  let minor := QuickStartPy.py_minor env in
  (SetupPy.check_python_version major minor = true
   <-> 3 < major \/ (major = 3 /\ 8 <= minor))
  /\ (forall s, QuickStartPy.check_environment env = Some s ->
                s <> QuickStartPy.NotReady ->
                SetupPy.check_python_version major minor = true)
  /\ (3 < major -> minor < 8 ->
      SetupPy.check_python_version major minor = true
      /\ QuickStartPy.check_environment env = Some QuickStartPy.NotReady).
Proof.
  intros major minor.
  assert (Hsetup : SetupPy.check_python_version major minor = true
                   <-> 3 < major \/ (major = 3 /\ 8 <= minor)).
  { unfold SetupPy.check_python_version.
    destruct (Z.ltb_spec major 3) as [Ha|Ha], (Z.eqb_spec major 3) as [Hb|Hb],
             (Z.ltb_spec minor 8) as [Hc|Hc];
      cbn [orb andb]; split; intros Hv; try discriminate; try reflexivity; lia. }
  split; [exact Hsetup|]. split.
  - intros s Hs Hne. apply Hsetup.
    unfold QuickStartPy.check_environment in Hs. fold major minor in Hs.
    destruct (Z.leb_spec 3 major) as [Ha|Ha], (Z.leb_spec 8 minor) as [Hb|Hb];
      cbn [andb negb] in Hs; try (injection Hs as <-; contradiction).
    lia.
  - intros Hmajor Hminor. split; [apply Hsetup; lia|].
    unfold QuickStartPy.check_environment. fold major minor.
    destruct (Z.leb_spec 3 major) as [Ha|Ha], (Z.leb_spec 8 minor) as [Hb|Hb];
      cbn [andb negb]; try reflexivity; lia.
Qed.

Lemma check_api_key_reads_the_entry_witness :
  RunPy.check_api_key (Some Scenario.keyed) = Some true.
Proof.
  apply (check_api_key_reads_the_entry
           ("# Google AI API Configuration" +:+ Py.newline)
           " AIzaSyD-0123456789abcdefghij "
           ("MODEL_NAME=gemini-2.0-flash-exp" +:+ Py.newline));
    vm_compute; reflexivity.
Defined.

Lemma key_checks_are_ordered_witness :
  RunPy.check_api_key (Some Scenario.keyed) = Some true
  /\ (SetupPy.setup_environment (Some Scenario.keyed)).1 = true.
Proof.
  destruct (key_checks_are_ordered (Scenario.ready_env (Some Scenario.keyed))
              Scenario.keyed eq_refl) as [H1 H2].
  assert (Hrun : RunPy.check_api_key (Some Scenario.keyed) = Some true)
    by (apply H1; vm_compute; reflexivity).
  split; [exact Hrun|exact (H2 Hrun)].
Defined.

Lemma env_without_entry_divides_the_scripts_witness :
  RunPy.check_api_key (Some "MODEL_NAME=gemini-2.0-flash-exp") = Some false
  /\ SetupPy.setup_environment (Some "MODEL_NAME=gemini-2.0-flash-exp")
     = (true, Some "MODEL_NAME=gemini-2.0-flash-exp")
  /\ QuickStartPy.check_environment
       (Scenario.ready_env (Some "MODEL_NAME=gemini-2.0-flash-exp"))
     = Some QuickStartPy.Ready
  /\ QuickStartPy.main (Scenario.ready_env (Some "MODEL_NAME=gemini-2.0-flash-exp"))
     = Some ([QuickStartPy.StartStreamlit], Some "MODEL_NAME=gemini-2.0-flash-exp").
Proof.
  apply (env_without_entry_divides_the_scripts
           (Scenario.ready_env (Some "MODEL_NAME=gemini-2.0-flash-exp"))
           "MODEL_NAME=gemini-2.0-flash-exp");
    try reflexivity; try (simpl; lia).
Defined.

Lemma quick_start_launch_conditions_witness :
  exists content,
    QuickStartPy.dotenv (Scenario.ready_env (Some Scenario.keyed)) = Some content
    /\ Py.contains placeholder content = false.
Proof.
  destruct (quick_start_launch_conditions (Scenario.ready_env (Some Scenario.keyed))
              [QuickStartPy.StartStreamlit] (Some Scenario.keyed))
    as (H & _ & _).
  - vm_compute. reflexivity.
  - destruct H as (_ & _ & _ & _ & Hc); [left|exact Hc].
Defined.

Lemma placeholder_blocks_every_script_witness :
  RunPy.check_api_key (Some env_content) = Some false
  /\ SetupPy.setup_environment (Some env_content) = (false, Some env_content).
Proof.
  destruct (proj1 placeholder_blocks_every_script env_content) as (H1 & H2 & _).
  - vm_compute. reflexivity.
  - split; [exact H1|exact H2].
Defined.

Lemma python_version_tests_witness :
  SetupPy.check_python_version 4 0 = true
  /\ QuickStartPy.check_environment
       {| QuickStartPy.py_major := 4; QuickStartPy.py_minor := 0;
          QuickStartPy.app_py_exists := true;
          QuickStartPy.importable := fun _ => true;
          QuickStartPy.dotenv := Some Scenario.keyed |}
     = Some QuickStartPy.NotReady.
Proof.
  apply (proj2 (proj2 (python_version_tests
                         {| QuickStartPy.py_major := 4; QuickStartPy.py_minor := 0;
                            QuickStartPy.app_py_exists := true;
                            QuickStartPy.importable := fun _ => true;
                            QuickStartPy.dotenv := Some Scenario.keyed |})));
    simpl; lia.
Defined.
